(** * SmartSearch UI: configuration, field extraction, theming, orchestration

    A shallow embedding of [lib/smartsearch-ui.js] (class [SmartSearchUI])
    and of the theme descriptors that plug into it.

    JavaScript values are an inductive type; objects are ordered association
    lists, as a JavaScript object keeps its own keys in insertion order.
    Property reads are on own properties only: names inherited from
    [Object.prototype] are outside the model.  Numbers are the integers.
    Code that can throw returns a [completion].  The document, client-side
    storage, the external search client and the console are fields of one
    state record that every operation threads; calls that leave the library
    (theme hooks, client calls, console output) are appended to a trace. *)

From Stdlib Require Import ZArith Lia Ascii.
From stdpp Require Import base option list strings pretty gmap.

#[local] Set Warnings "-register-all".

(** ** JavaScript values *)

Inductive jsval : Type :=
  | JUndefined
  | JNull
  | JBool (b : bool)
  | JNum (n : Z)
  | JStr (s : string)
  | JArr (xs : list jsval)
  | JObj (props : list (string * jsval))
  | JFun (src : string).

Inductive js_error : Type :=
  | TypeError (reading : string)
  | RangeError (what : string)
  | Error (message : string).

Inductive completion (A : Type) : Type :=
  | Normal (a : A)
  | Throw (e : js_error).
Arguments Normal {A} a.
Arguments Throw {A} e.

#[global] Instance completion_ret : MRet completion := @Normal.
#[global] Instance completion_bind : MBind completion :=
  fun A B f c => match c with Normal a => f a | Throw e => Throw e end.

(** [if (v)], [!v], [a || b], [a && b] *)
Definition truthy (v : jsval) : bool :=
  match v with
  | JUndefined | JNull => false
  | JBool b => b
  | JNum n => negb (n =? 0)%Z
  | JStr s => negb (String.eqb s "")
  | JArr _ | JObj _ | JFun _ => true
  end.

Definition js_or (a b : jsval) : jsval := if truthy a then a else b.

Definition typeof (v : jsval) : string :=
  match v with
  | JUndefined => "undefined"
  | JNull => "object"
  | JBool _ => "boolean"
  | JNum _ => "number"
  | JStr _ => "string"
  | JArr _ | JObj _ => "object"
  | JFun _ => "function"
  end.

Definition isArray (v : jsval) : bool :=
  match v with JArr _ => true | _ => false end.

(** Own properties of an object, in order. *)
Fixpoint lookup_prop (key : string) (props : list (string * jsval)) : option jsval :=
  match props with
  | [] => None
  | (k, v) :: rest => if String.eqb k key then Some v else lookup_prop key rest
  end.

(** [o[key] = v]: an existing key keeps its place, a new key goes last. *)
Fixpoint set_prop (key : string) (v : jsval) (props : list (string * jsval))
  : list (string * jsval) :=
  match props with
  | [] => [(key, v)]
  | (k, w) :: rest =>
      if String.eqb k key then (k, v) :: rest else (k, w) :: set_prop key v rest
  end.

Definition chars (s : string) : list jsval :=
  (fun a => JStr (String a EmptyString)) <$> String.list_ascii_of_string s.

Definition indexed (xs : list jsval) : list (string * jsval) :=
  imap (fun i x => (pretty i, x)) xs.

(** The own enumerable properties that [Object.assign({}, v)] copies. *)
Definition own_enumerable (v : jsval) : list (string * jsval) :=
  match v with
  | JObj props => props
  | JArr xs => indexed xs
  | JStr s => indexed (chars s)
  | _ => []
  end.

(** [key in o], for [o] an object *)
Definition has_key (key : string) (o : jsval) : bool :=
  match o with
  | JObj props => bool_decide (is_Some (lookup_prop key props))
  | _ => false
  end.

(** [v[key]] where the read cannot throw ([v] is known not to be nullish) *)
Definition get (v : jsval) (key : string) : jsval :=
  match v with
  | JObj props => default JUndefined (lookup_prop key props)
  | JArr xs =>
      if String.eqb key "length" then JNum (Z.of_nat (length xs))
      else default JUndefined (lookup_prop key (indexed xs))
  | JStr s =>
      if String.eqb key "length" then JNum (Z.of_nat (String.length s))
      else default JUndefined (lookup_prop key (indexed (chars s)))
  | _ => JUndefined
  end.

(** [v.key]: reading a property of [null] or [undefined] throws. *)
Definition read (v : jsval) (key : string) : completion jsval :=
  match v with
  | JUndefined | JNull => Throw (TypeError key)
  | _ => Normal (get v key)
  end.

(** [v?.key] *)
Definition read_opt (v : jsval) (key : string) : jsval :=
  match v with
  | JUndefined | JNull => JUndefined
  | _ => get v key
  end.

(** [String(v)], as a template literal or a computed property key applies it *)
Fixpoint to_str (v : jsval) : string :=
  match v with
  | JUndefined => "undefined"
  | JNull => "null"
  | JBool true => "true"
  | JBool false => "false"
  | JNum n => pretty n
  | JStr s => s
  | JArr xs =>
      (fix join (ys : list jsval) : string :=
         match ys with
         | [] => ""
         | y :: rest =>
             let item := match y with JUndefined | JNull => "" | _ => to_str y end in
             match rest with [] => item | _ => item +:+ "," +:+ join rest end
         end) xs
  | JObj _ => "[object Object]"
  | JFun src => src
  end.

(** [Array.prototype.join] on strings *)
Fixpoint join (sep : string) (parts : list string) : string :=
  match parts with
  | [] => ""
  | [p] => p
  | p :: rest => p +:+ sep +:+ join sep rest
  end.

(** ** Configuration merge *)

Definition _isObject (item : jsval) : bool :=
  truthy item && String.eqb (typeof item) "object" && negb (isArray item).

(** The callback of the [forEach] in [_deepMerge], for one key of the source:
    [merge] is [_deepMerge] itself, [entry] the key with [source[key]]. *)
Definition merge_step (merge : jsval → jsval → jsval) (target : jsval)
    (output : list (string * jsval)) (entry : string * jsval) : list (string * jsval) :=
  let '(key, v) := entry in
  if _isObject v then
    if negb (has_key key target) then set_prop key v output
    else set_prop key (merge (get target key) v) output
  else set_prop key v output.

(** [forEach] over [Object.keys(source)] reads [source[key]]; on an object
    that is the value stored with the key, so the loop runs over the entries. *)
Fixpoint _deepMerge (target source : jsval) {struct source} : jsval :=
  let output := own_enumerable target in
  if _isObject target && _isObject source then
    match source with
    | JObj entries => JObj (foldl (merge_step _deepMerge target) output entries)
    | _ => JObj output
    end
  else JObj output.

Definition defaults : jsval :=
  JObj [
    ("server", JObj [
       ("defaultURL", JNull);
       ("defaultPreparedSearch", JNull);
       ("localStorageKeys", JObj [
          ("server", JStr "smartsearch-server");
          ("preparedSearch", JStr "smartsearch-prepared-search")])]);
    ("facets", JObj [("displayNames", JObj [])]);
    ("dateFilter", JObj [
       ("enabled", JBool true);
       ("fieldName", JNull);
       ("solrFilterParam", JStr "fq")]);
    ("resultFields", JObj [
       ("title", JObj [("field", JNull); ("fallback", JStr "Untitled")]);
       ("description", JObj [
          ("fields", JArr []);
          ("fallback", JStr "No description available");
          ("useHighlighting", JBool true)]);
       ("link", JObj [("fields", JArr []); ("fallback", JStr "#")]);
       ("date", JObj [
          ("field", JNull);
          ("format", JObj [("year", JStr "numeric"); ("month", JStr "short");
                           ("day", JStr "numeric")]);
          ("locale", JStr "en");
          ("fallback", JStr "No date")]);
       ("language", JObj [("field", JNull); ("default", JStr "EN")])]);
    ("features", JObj [
       ("settingsModal", JBool true);
       ("fieldInspector", JBool true);
       ("dateFilter", JBool true);
       ("instantFiltering", JBool true);
       ("didYouMean", JBool true);
       ("smoothScrolling", JBool true)]);
    ("ui", JObj [
       ("resultsPerPage", JNum 10);
       ("maxPaginationButtons", JNum 5);
       ("showResultCount", JBool true);
       ("emptyStateMessage", JStr "Enter a search query to get started");
       ("emptyStateIcon", JStr "🔍");
       ("errorStateIcon", JStr "⚠️")]);
    ("hooks", JObj [
       ("beforeSearch", JNull);
       ("afterSearch", JNull);
       ("onResultClick", JNull);
       ("beforeRender", JNull);
       ("afterRender", JNull)]);
    ("resultTemplate", JNull)
  ].

Definition _mergeConfig (userConfig : jsval) : jsval :=
  _deepMerge defaults userConfig.

(** Reading a dotted path of a configuration that has it. *)
Definition path (v : jsval) (keys : list string) : jsval :=
  foldl get v keys.


(** ** Configuration validation *)

Definition nl : string := String "010"%char EmptyString.

(** [v === n] for a number literal [n] *)
Definition strict_eq_num (v : jsval) (n : Z) : bool :=
  match v with JNum m => (m =? n)%Z | _ => false end.

Definition missing_message (required : list string) : string :=
  "SmartSearchUI: Missing required configuration:" +:+ nl +:+ "  - "
  +:+ join (nl +:+ "  - ") required +:+ nl +:+ nl
  +:+ "Please provide these values in config/project.config.js".

(** [if (cond) required.push(name)] *)
Definition push_if (cond : bool) (name : string) (required : list string) : list string :=
  if cond then required ++ [name] else required.

Definition _validateConfig (config : jsval) : completion unit :=
  let required := [] in
  server ← read config "server";
  defaultURL ← read server "defaultURL";
  let required := push_if (negb (truthy defaultURL)) "server.defaultURL" required in
  server ← read config "server";
  defaultPreparedSearch ← read server "defaultPreparedSearch";
  let required :=
    push_if (negb (truthy defaultPreparedSearch)) "server.defaultPreparedSearch" required in
  resultFields ← read config "resultFields";
  title ← read resultFields "title";
  field ← read title "field";
  let required := push_if (negb (truthy field)) "resultFields.title.field" required in
  description ← read resultFields "description";
  fields ← read description "fields";
  let required :=
    push_if (negb (truthy fields) || strict_eq_num (get fields "length") 0)
      "resultFields.description.fields" required in
  link ← read resultFields "link";
  fields ← read link "fields";
  let required :=
    push_if (negb (truthy fields) || strict_eq_num (get fields "length") 0)
      "resultFields.link.fields" required in
  dateFilter ← read config "dateFilter";
  enabled ← read dateFilter "enabled";
  let required :=
    push_if (truthy enabled && negb (truthy (get dateFilter "fieldName")))
      "dateFilter.fieldName (required when dateFilter.enabled = true)" required in
  if bool_decide (0 < length required)%nat
  then Throw (Error (missing_message required))
  else Normal ().

(** The checklist of required leaves, as the specification words it: the
    path that is reported, and when the leaf counts as missing. *)
Definition is_empty_list (v : jsval) : bool :=
  negb (truthy v) || strict_eq_num (get v "length") 0.

Definition required_leaves : list (string * (jsval → bool)) :=
  [ ("server.defaultURL",
      fun c => negb (truthy (path c ["server"; "defaultURL"])));
    ("server.defaultPreparedSearch",
      fun c => negb (truthy (path c ["server"; "defaultPreparedSearch"])));
    ("resultFields.title.field",
      fun c => negb (truthy (path c ["resultFields"; "title"; "field"])));
    ("resultFields.description.fields",
      fun c => is_empty_list (path c ["resultFields"; "description"; "fields"]));
    ("resultFields.link.fields",
      fun c => is_empty_list (path c ["resultFields"; "link"; "fields"]));
    ("dateFilter.fieldName (required when dateFilter.enabled = true)",
      fun c => truthy (path c ["dateFilter"; "enabled"])
               && negb (truthy (path c ["dateFilter"; "fieldName"]))) ].

Definition missing_leaves (config : jsval) : list string :=
  (filter (fun leaf => leaf.2 config = true) required_leaves).*1.

Definition nullish (v : jsval) : bool :=
  match v with JUndefined | JNull => true | _ => false end.



(** ** Field extraction *)

(** [Array.isArray(value) ? value[0] : value] *)
Definition first_or_self (value : jsval) : jsval :=
  if isArray value then get value "0" else value.

(** What [for (const field of fields)] runs over. *)
Definition iterate (fields : jsval) : completion (list jsval) :=
  match fields with
  | JArr xs => Normal xs
  | JStr s => Normal (chars s)
  | _ => Throw (TypeError "Symbol.iterator")
  end.

Fixpoint first_set (result : jsval) (fields : list jsval) : completion (option jsval) :=
  match fields with
  | [] => Normal None
  | field :: rest =>
      value ← read result (to_str field);
      if truthy value then Normal (Some (first_or_self value))
      else first_set result rest
  end.

Definition getField (config result : jsval) (fieldName : string) : completion jsval :=
  resultFields ← read config "resultFields";
  fieldConfig ← read resultFields fieldName;
  if negb (truthy fieldConfig) then Normal JNull else
  if truthy (get fieldConfig "field") then
    value ← read result (to_str (get fieldConfig "field"));
    if truthy value then Normal (first_or_self value)
    else Normal (js_or (get fieldConfig "fallback") JNull)
  else if truthy (get fieldConfig "fields") then
    fields ← iterate (get fieldConfig "fields");
    found ← first_set result fields;
    match found with
    | Some value => Normal value
    | None => Normal (js_or (get fieldConfig "fallback") JNull)
    end
  else Normal JNull.
(** ** Dates

    [Date] and [Intl] belong to the platform.  The library needs three things
    of them: the time value of [new Date(v)] ([None] for an invalid date),
    the ISO text of a valid time value, and the locale-aware formatting of a
    valid time value, which throws a [RangeError] on a locale or an option it
    does not accept. *)

Class Platform : Type := {
  Date_new : jsval → option Z;
  Date_iso : Z → string;
  Intl_format : jsval → jsval → Z → completion string
}.

(** [Date.prototype.toISOString] throws on an invalid date. *)
Definition toISOString `{Platform} (date : option Z) : completion string :=
  match date with
  | Some t => Normal (Date_iso t)
  | None => Throw (RangeError "Invalid time value")
  end.

(** [Date.prototype.toLocaleDateString] answers an invalid date with the
    text "Invalid Date", before it looks at its arguments. *)
Definition toLocaleDateString `{Platform} (date : option Z) (locales options : jsval)
  : completion string :=
  match date with
  | None => Normal "Invalid Date"
  | Some t => Intl_format locales options t
  end.

(** The value returned, and what the call wrote with [console.error]. *)
Definition formatDate `{Platform} (config result : jsval)
  : completion (jsval * list string) :=
  resultFields ← read config "resultFields";
  dateConfig ← read resultFields "date";
  field ← read dateConfig "field";
  dateValue ← read result (to_str field);
  if negb (truthy dateValue) then Normal (get dateConfig "fallback", [])
  else
    match toLocaleDateString (Date_new dateValue)
            (get dateConfig "locale") (get dateConfig "format") with
    | Normal text => Normal (JStr text, [])
    | Throw e => Normal (get dateConfig "fallback", ["Date parsing error:"])
    end.

(** A platform that reads the two date-time forms the library produces,
    [YYYY-MM-DD] and [YYYY-MM-DDTHH:MM:SSZ], in UTC, and formats for the
    locale [en] with the library's default date style. *)
Module IsoDates.

Definition digit (a : ascii) : option Z :=
  let n := Z.of_nat (nat_of_ascii a) in
  if ((48 <=? n) && (n <=? 57))%Z then Some (n - 48)%Z else None.

Fixpoint number (acc : Z) (cs : list ascii) : option Z :=
  match cs with
  | [] => Some acc
  | c :: rest => d ← digit c; number (10 * acc + d) rest
  end.

Definition is_leap (y : Z) : bool :=
  ((y mod 4 =? 0) && (negb (y mod 100 =? 0) || (y mod 400 =? 0)))%Z.

Definition days_in_month (y m : Z) : Z :=
  if (m =? 2)%Z then (if is_leap y then 29 else 28)%Z
  else if ((m =? 4) || (m =? 6) || (m =? 9) || (m =? 11))%Z then 30%Z
  else 31%Z.

(** Days since 1970-01-01 of a civil date. *)
Definition days_from_civil (y m d : Z) : Z :=
  let y := (if m <=? 2 then y - 1 else y)%Z in
  let era := (y / 400)%Z in
  let yoe := (y - era * 400)%Z in
  let mp := ((m + 9) mod 12)%Z in
  let doy := ((153 * mp + 2) / 5 + d - 1)%Z in
  let doe := (yoe * 365 + yoe / 4 - yoe / 100 + doy)%Z in
  (era * 146097 + doe - 719468)%Z.

Definition civil_from_days (z : Z) : Z * Z * Z :=
  let z := (z + 719468)%Z in
  let era := (z / 146097)%Z in
  let doe := (z - era * 146097)%Z in
  let yoe := ((doe - doe / 1460 + doe / 36524 - doe / 146096) / 365)%Z in
  let doy := (doe - (365 * yoe + yoe / 4 - yoe / 100))%Z in
  let mp := ((5 * doy + 2) / 153)%Z in
  let d := (doy - (153 * mp + 2) / 5 + 1)%Z in
  let m := (if mp <? 10 then mp + 3 else mp - 9)%Z in
  ((if m <=? 2 then yoe + era * 400 + 1 else yoe + era * 400)%Z, m, d).

Definition date_part (cs : list ascii) : option Z :=
  match cs with
  | [y1; y2; y3; y4; dash1; m1; m2; dash2; d1; d2] =>
      if Ascii.eqb dash1 "-" && Ascii.eqb dash2 "-" then
        y ← number 0 [y1; y2; y3; y4];
        m ← number 0 [m1; m2];
        d ← number 0 [d1; d2];
        if ((1 <=? m) && (m <=? 12) && (1 <=? d) && (d <=? days_in_month y m))%Z
        then Some (days_from_civil y m d) else None
      else None
  | _ => None
  end.

Definition time_part (cs : list ascii) : option Z :=
  match cs with
  | [] => Some 0%Z
  | [t; h1; h2; c1; m1; m2; c2; s1; s2; z] =>
      if Ascii.eqb t "T" && Ascii.eqb c1 ":" && Ascii.eqb c2 ":" && Ascii.eqb z "Z" then
        h ← number 0 [h1; h2];
        m ← number 0 [m1; m2];
        s ← number 0 [s1; s2];
        if ((h <=? 23) && (m <=? 59) && (s <=? 59))%Z
        then Some (h * 3600 + m * 60 + s)%Z else None
      else None
  | _ => None
  end.

Definition parse (text : string) : option Z :=
  let cs := String.list_ascii_of_string text in
  days ← date_part (take 10 cs);
  secs ← time_part (drop 10 cs);
  Some ((days * 86400 + secs) * 1000)%Z.

Definition pad (width : nat) (n : Z) : string :=
  let text := pretty n in
  String.string_of_list_ascii
    (replicate (width - String.length text) "0"%char) +:+ text.

Definition iso (t : Z) : string :=
  let '(y, m, d) := civil_from_days (t / 86400000) in
  let r := (t mod 86400000)%Z in
  pad 4 y +:+ "-" +:+ pad 2 m +:+ "-" +:+ pad 2 d +:+ "T"
  +:+ pad 2 (r / 3600000) +:+ ":" +:+ pad 2 (r / 60000 mod 60) +:+ ":"
  +:+ pad 2 (r / 1000 mod 60) +:+ "." +:+ pad 3 (r mod 1000) +:+ "Z".

Definition month_short (m : Z) : string :=
  default "" (["Jan"; "Feb"; "Mar"; "Apr"; "May"; "Jun";
               "Jul"; "Aug"; "Sep"; "Oct"; "Nov"; "Dec"] !! Z.to_nat (m - 1)).

Definition en_short (t : Z) : string :=
  let '(y, m, d) := civil_from_days (t / 86400000) in
  month_short m +:+ " " +:+ pretty d +:+ ", " +:+ pretty y.

#[export] Instance platform : Platform := {
  Date_new v :=
    match v with
    | JStr text => parse text
    | JNum t => Some t
    | _ => None
    end;
  Date_iso := iso;
  Intl_format locales options t :=
    match locales with
    | JStr "en" => Normal (en_short t)
    | _ => Throw (RangeError "Incorrect locale information provided")
    end
}.

End IsoDates.

(** ** Facets, result pages, themes *)

Module Facet.
Record t : Type := {
  name : string;
  displayName : option string;
  counts : list (string * Z);
  selectedValues : list string
}.

Definition setDisplayName (shown : string) (f : t) : t :=
  {| name := name f; displayName := Some shown;
     counts := counts f; selectedValues := selectedValues f |}.
End Facet.

Module Page.
(** [totalResults] is the first truthy one of the count fields the client
    may send ([responseData.numRows], [numRows], [totalHits], ...), or 0. *)
Record t : Type := {
  facets : option (list Facet.t);
  searchResults : list (jsval * jsval);
  totalResults : Z;
  pageNumber : Z
}.
End Page.

Module Theme.
(** A theme descriptor.  The hooks [init] and [destroy] and the listener
    installers are recorded by their presence; a render override maps the
    domain value to markup. *)
Record t : Type := {
  cssFile : option string;
  renderFacet : option (Facet.t → string);
  renderResultCard : option (jsval → jsval → string);
  attachFacetListeners : bool;
  attachCardListeners : bool;
  init : bool;
  destroy : bool
}.
End Theme.

(** The functions a configuration holds under [hooks] and [resultTemplate]. *)
Record callbacks : Type := {
  beforeSearch : option (string → string);
  afterSearch : option (Page.t → option Page.t);
  beforeRender : option (Page.t → Page.t);
  resultTemplate : option (jsval → jsval → string)
}.

(** What leaves the library, in the order it happens. *)
Inductive event : Type :=
  | ConsoleLog (text : string)
  | ConsoleWarn (text : string)
  | ConsoleError (text : string)
  | HookInit (themeId : string)
  | HookDestroy (themeId : string)
  | SetItem (key value : string)
  | SetCustomParams (key value : string)
  | DeleteCustomParams (key : jsval)
  | ClientSearch (query : string)
  | FacetFilter (facet : string) (values : list string)
  | GetPage (pageNumber : Z)
  | ResetFacets
  | BodyClassAdd (class : string)
  | BodyClassRemove (class : string)
  | LinkAppended (node : nat) (themeId : string)
  | LinkRemoved (node : nat) (themeId : string).

(** The external search client.  An answer may depend on everything that
    happened before the call; [None] is a rejected promise. *)
Record client : Type := {
  search_answer : list event → string → option Page.t;
  filter_answer : list event → Facet.t → list string → option Page.t;
  getPage_answer : list event → Page.t → Z → option Page.t;
  resetFacets_answer : list event → Page.t → option Page.t
}.

(** A [<link>] element; [node] is its identity. *)
Record link : Type := {
  node : nat;
  href : string;
  data_theme : string
}.

Inductive facet_el : Type :=
  | ThemeFacet (html : string) (listeners : bool)
  | DefaultFacet (facet : Facet.t) (boxes : list (string * bool)).

Inductive card_el : Type :=
  | EmptyState
  | ErrorState
  | NoResults
  | TemplateCard (html : string)
  | ThemeCard (html : string) (listeners : bool)
  | DefaultCard (index : nat) (result : jsval).

(** The parts of the document the library reads and writes.  [body] is the
    class list of [document.body], [None] before the body exists.
    [facets_container] and [search_results] are the children of the elements
    with these ids, [None] when the page has no such element ([search_results]
    stands for the results wrapper together with the pagination wrapper).
    [pagination_for] and [reset_all_button] hold the page that the click
    handlers installed last are bound to. *)
Record document : Type := {
  body : option (list string);
  loading : bool;
  onDOMContentLoaded : list string;
  links : list link;
  next_node : nat;
  facets_container : option (list facet_el);
  search_results : option (list card_el);
  pagination_for : option Page.t;
  reset_all_button : option (option Page.t);
  start_date : option string;
  end_date : option string;
  url_query : option string
}.

(** The fields of a [SmartSearchUI] instance. *)
Record ui : Type := {
  fsss : client;
  config : jsval;
  hooks : callbacks;
  themeRegistry : gmap string Theme.t;
  currentPage : option Page.t;
  currentTheme : option Theme.t;
  currentThemeId : option string;
  loadedThemeCSS : list link;
  facetContainer : bool
}.

Record world : Type := {
  this : ui;
  doc : document;
  localStorage : gmap string string;
  trace : list event
}.

(** Field updates *)
Definition with_this (f : ui → ui) (w : world) : world :=
  {| this := f (this w); doc := doc w; localStorage := localStorage w; trace := trace w |}.
Definition with_doc (f : document → document) (w : world) : world :=
  {| this := this w; doc := f (doc w); localStorage := localStorage w; trace := trace w |}.
Definition with_localStorage (f : gmap string string → gmap string string) (w : world) : world :=
  {| this := this w; doc := doc w; localStorage := f (localStorage w); trace := trace w |}.
Definition with_trace (f : list event → list event) (w : world) : world :=
  {| this := this w; doc := doc w; localStorage := localStorage w; trace := f (trace w) |}.

Definition set_currentPage (p : option Page.t) (u : ui) : ui :=
  {| fsss := fsss u; config := config u; hooks := hooks u; themeRegistry := themeRegistry u;
     currentPage := p; currentTheme := currentTheme u; currentThemeId := currentThemeId u;
     loadedThemeCSS := loadedThemeCSS u; facetContainer := facetContainer u |}.
Definition set_currentTheme (t : option Theme.t) (i : option string) (u : ui) : ui :=
  {| fsss := fsss u; config := config u; hooks := hooks u; themeRegistry := themeRegistry u;
     currentPage := currentPage u; currentTheme := t; currentThemeId := i;
     loadedThemeCSS := loadedThemeCSS u; facetContainer := facetContainer u |}.
Definition set_loadedThemeCSS (ls : list link) (u : ui) : ui :=
  {| fsss := fsss u; config := config u; hooks := hooks u; themeRegistry := themeRegistry u;
     currentPage := currentPage u; currentTheme := currentTheme u;
     currentThemeId := currentThemeId u;
     loadedThemeCSS := ls; facetContainer := facetContainer u |}.
Definition set_facetContainer (b : bool) (u : ui) : ui :=
  {| fsss := fsss u; config := config u; hooks := hooks u; themeRegistry := themeRegistry u;
     currentPage := currentPage u; currentTheme := currentTheme u;
     currentThemeId := currentThemeId u;
     loadedThemeCSS := loadedThemeCSS u; facetContainer := b |}.

Definition set_body (b : option (list string)) (d : document) : document :=
  {| body := b; loading := loading d; onDOMContentLoaded := onDOMContentLoaded d;
     links := links d; next_node := next_node d; facets_container := facets_container d;
     search_results := search_results d; pagination_for := pagination_for d;
     reset_all_button := reset_all_button d; start_date := start_date d;
     end_date := end_date d; url_query := url_query d |}.
Definition set_ready (listeners : list string) (is_loading : bool) (d : document) : document :=
  {| body := body d; loading := is_loading; onDOMContentLoaded := listeners;
     links := links d; next_node := next_node d; facets_container := facets_container d;
     search_results := search_results d; pagination_for := pagination_for d;
     reset_all_button := reset_all_button d; start_date := start_date d;
     end_date := end_date d; url_query := url_query d |}.
Definition set_links (ls : list link) (next : nat) (d : document) : document :=
  {| body := body d; loading := loading d; onDOMContentLoaded := onDOMContentLoaded d;
     links := ls; next_node := next; facets_container := facets_container d;
     search_results := search_results d; pagination_for := pagination_for d;
     reset_all_button := reset_all_button d; start_date := start_date d;
     end_date := end_date d; url_query := url_query d |}.
Definition set_facets_container (c : option (list facet_el)) (d : document) : document :=
  {| body := body d; loading := loading d; onDOMContentLoaded := onDOMContentLoaded d;
     links := links d; next_node := next_node d; facets_container := c;
     search_results := search_results d; pagination_for := pagination_for d;
     reset_all_button := reset_all_button d; start_date := start_date d;
     end_date := end_date d; url_query := url_query d |}.
Definition set_search_results (c : option (list card_el)) (d : document) : document :=
  {| body := body d; loading := loading d; onDOMContentLoaded := onDOMContentLoaded d;
     links := links d; next_node := next_node d; facets_container := facets_container d;
     search_results := c; pagination_for := pagination_for d;
     reset_all_button := reset_all_button d; start_date := start_date d;
     end_date := end_date d; url_query := url_query d |}.
Definition set_pagination_for (p : option Page.t) (d : document) : document :=
  {| body := body d; loading := loading d; onDOMContentLoaded := onDOMContentLoaded d;
     links := links d; next_node := next_node d; facets_container := facets_container d;
     search_results := search_results d; pagination_for := p;
     reset_all_button := reset_all_button d; start_date := start_date d;
     end_date := end_date d; url_query := url_query d |}.
Definition set_reset_all_button (b : option (option Page.t)) (d : document) : document :=
  {| body := body d; loading := loading d; onDOMContentLoaded := onDOMContentLoaded d;
     links := links d; next_node := next_node d; facets_container := facets_container d;
     search_results := search_results d; pagination_for := pagination_for d;
     reset_all_button := b; start_date := start_date d;
     end_date := end_date d; url_query := url_query d |}.
Definition set_dates (s e : option string) (d : document) : document :=
  {| body := body d; loading := loading d; onDOMContentLoaded := onDOMContentLoaded d;
     links := links d; next_node := next_node d; facets_container := facets_container d;
     search_results := search_results d; pagination_for := pagination_for d;
     reset_all_button := reset_all_button d; start_date := s;
     end_date := e; url_query := url_query d |}.

(** ** Operations: state and exceptions

    An operation runs from a world to a completion and the world it leaves;
    what was written before an exception stays written. *)

Definition act (A : Type) : Type := world → completion A * world.

Definition ret {A : Type} (a : A) : act A := fun w => (Normal a, w).
Definition bind {A B : Type} (m : act A) (f : A → act B) : act B := fun w =>
  match m w with
  | (Normal a, w') => f a w'
  | (Throw e, w') => (Throw e, w')
  end.

Declare Scope act_scope.
Delimit Scope act_scope with act.
Notation "x ← y ; z" := (bind y (fun x => z))
  (at level 20, y at level 100, z at level 200, only parsing) : act_scope.
Notation "x ;; z" := (bind x (fun _ => z))
  (at level 100, z at level 200, only parsing, right associativity) : act_scope.
Local Open Scope act_scope.

Definition throw {A : Type} (e : js_error) : act A := fun w => (Throw e, w).
Definition lift {A : Type} (c : completion A) : act A := fun w => (c, w).
Definition gets {A : Type} (f : world → A) : act A := fun w => (Normal (f w), w).
Definition modify (f : world → world) : act () := fun w => (Normal (), f w).
Definition emit (e : event) : act () := modify (with_trace (fun t => t ++ [e])).
Definition skip : act () := ret ().
Definition when (cond : bool) (m : act ()) : act () := if cond then m else skip.

Definition try_catch {A : Type} (m : act A) (handler : js_error → act A) : act A :=
  fun w => match m w with
           | (Throw e, w') => handler e w'
           | done => done
           end.

(** [await promise]: the answer, or the rejection thrown *)
Definition await {A : Type} (answer : option A) : act A :=
  match answer with
  | Some a => ret a
  | None => throw (Error "rejected")
  end.

Fixpoint forEach {A : Type} (f : A → act ()) (xs : list A) : act () :=
  match xs with
  | [] => skip
  | x :: rest => f x ;; forEach f rest
  end.

(** The world an operation leaves *)
Definition after {A : Type} (m : act A) (w : world) : world := (m w).2.

(** ** Theme loading *)

Definition classList_add (class : string) (classes : list string) : list string :=
  if bool_decide (class ∈ classes) then classes else classes ++ [class].

Definition classList_remove (class : string) (classes : list string) : list string :=
  filter (fun c => c ≠ class) classes.

Definition same_node (a b : link) : bool := bool_decide (node a = node b).

Definition theme_class (themeId : string) : string := "theme-" +:+ themeId.

(** Theme hooks and render overrides are code of the theme.  They are taken
    to return normally and to leave the fields of [world] alone; a hook call
    is an entry of the trace. *)

Definition _loadThemeCSS (cssFile themeId : string) : act () :=
  existing ← gets (fun w =>
    list_find (fun l => data_theme l = themeId) (links (doc w)));
  match existing with
  | Some _ => skip
  | None =>
      n ← gets (fun w => next_node (doc w));
      let created := {| node := n; href := cssFile; data_theme := themeId |} in
      modify (with_doc (fun d => set_links (links d ++ [created]) (S n) d));;
      emit (LinkAppended n themeId);;
      modify (with_this (fun u => set_loadedThemeCSS (loadedThemeCSS u ++ [created]) u))
  end.

(** The closure [applyClass] of [_applyThemeClass] *)
Definition applyClass (themeId : string) : act () :=
  b ← gets (fun w => body (doc w));
  match b with
  | Some classes =>
      modify (with_doc (set_body (Some (classList_add (theme_class themeId) classes))));;
      emit (BodyClassAdd (theme_class themeId));;
      theme ← gets (fun w => currentTheme (this w));
      active ← gets (fun w => default "" (currentThemeId (this w)));
      match theme with
      | Some t => when (Theme.init t) (emit (HookInit active))
      | None => skip
      end
  | None => skip
  end.

Definition _applyThemeClass (themeId : string) : act () :=
  b ← gets (fun w => body (doc w));
  if bool_decide (is_Some b) then applyClass themeId
  else
    still_loading ← gets (fun w => loading (doc w));
    if still_loading
    then modify (with_doc (fun d => set_ready (onDOMContentLoaded d ++ [themeId]) true d))
    else applyClass themeId.

(** The document fires [DOMContentLoaded]: the body is there, and the
    listeners registered meanwhile run in order. *)
Definition DOMContentLoaded : act () :=
  listeners ← gets (fun w => onDOMContentLoaded (doc w));
  modify (with_doc (fun d => set_body (Some (default [] (body d))) (set_ready [] false d)));;
  forEach applyClass listeners.

(** [if (link.parentNode) link.parentNode.removeChild(link)] *)
Definition detach (l : link) : act () :=
  attached ← gets (fun w => existsb (same_node l) (links (doc w)));
  when attached
    (modify (with_doc (fun d =>
       set_links (filter (fun l' => same_node l l' = false) (links d)) (next_node d) d));;
     emit (LinkRemoved (node l) (data_theme l))).

Definition _unloadTheme : act () :=
  theme ← gets (fun w => currentTheme (this w));
  match theme with
  | None => skip
  | Some t =>
      active ← gets (fun w => currentThemeId (this w));
      when (Theme.destroy t) (emit (HookDestroy (default "" active)));;
      b ← gets (fun w => body (doc w));
      match b, active with
      | Some classes, Some themeId =>
          when (negb (String.eqb themeId ""))
            (modify (with_doc (set_body (Some (classList_remove (theme_class themeId) classes))));;
             emit (BodyClassRemove (theme_class themeId)))
      | _, _ => skip
      end;;
      loaded ← gets (fun w => loadedThemeCSS (this w));
      forEach detach loaded;;
      modify (with_this (set_loadedThemeCSS []));;
      modify (with_this (set_currentTheme None None))
  end.

Definition _loadTheme (themeId : string) : act () :=
  registry ← gets (fun w => themeRegistry (this w));
  match registry !! themeId with
  | None =>
      emit (ConsoleWarn ("[SmartSearchUI] Theme '" +:+ themeId +:+ "' not found, using default"))
  | Some theme =>
      current ← gets (fun w => currentTheme (this w));
      when (bool_decide (is_Some current)) _unloadTheme;;
      match Theme.cssFile theme with
      | Some cssFile => when (negb (String.eqb cssFile "")) (_loadThemeCSS cssFile themeId)
      | None => skip
      end;;
      modify (with_this (set_currentTheme (Some theme) (Some themeId)));;
      _applyThemeClass themeId;;
      emit (ConsoleLog ("[SmartSearchUI] Theme '" +:+ themeId +:+ "' loaded successfully"))
  end.

(** ** Rendering *)

Definition append_facet (el : facet_el) : act () :=
  modify (with_doc (fun d => set_facets_container ((fun c => c ++ [el]) <$> facets_container d) d)).

Definition append_card (el : card_el) : act () :=
  modify (with_doc (fun d => set_search_results ((fun c => c ++ [el]) <$> search_results d) d)).

Definition initFacetContainer (page : Page.t) : act () :=
  found ← gets (fun w => bool_decide (is_Some (facets_container (doc w))));
  modify (with_this (set_facetContainer found));;
  if negb found then emit (ConsoleWarn "Facets container element not found")
  else
    modify (with_doc (set_facets_container (Some [])));;
    modify (with_doc (fun d =>
      set_reset_all_button ((fun _ => Some page) <$> reset_all_button d) d)).

Definition _renderFacetDefault (facet : Facet.t) : act () :=
  container ← gets (fun w => facetContainer (this w));
  if negb container then skip
  else
    append_facet (DefaultFacet facet
      ((fun count => (count.1, bool_decide (count.1 ∈ Facet.selectedValues facet)))
         <$> Facet.counts facet)).

Definition renderFacet (facet : Facet.t) : act () :=
  container ← gets (fun w => facetContainer (this w));
  if negb container then skip
  else
    theme ← gets (fun w => currentTheme (this w));
    match theme with
    | Some t =>
        match Theme.renderFacet t with
        | Some render => append_facet (ThemeFacet (render facet) (Theme.attachFacetListeners t))
        | None => _renderFacetDefault facet
        end
    | None => _renderFacetDefault facet
    end.

(** [_setupDateFilter] shows the date box and rebinds the listeners of the
    two date inputs; it writes nothing that is modelled here. *)
Definition renderAllFacets (page : Page.t) : act () :=
  match Page.facets page with
  | None | Some [] => skip
  | Some facets =>
      cfg ← gets (fun w => config (this w));
      dateFilter ← lift (read cfg "dateFilter");
      forEach (fun facet =>
        groups ← lift (read cfg "facets");
        displayNames ← lift (read groups "displayNames");
        displayName ← lift (read displayNames (Facet.name facet));
        if truthy displayName
        then renderFacet (Facet.setDisplayName (to_str displayName) facet)
        else renderFacet facet) facets
  end.

Definition _renderWithCustomTemplate (template : jsval → jsval → string) (page : Page.t)
  : act () :=
  forEach (fun wrapper => append_card (TemplateCard (template wrapper.1 wrapper.2)))
    (Page.searchResults page).

Definition _renderDefaultCards (page : Page.t) : act () :=
  forEach (fun entry =>
    let '(index, (result, highlights)) := entry in
    theme ← gets (fun w => currentTheme (this w));
    match (theme ≫= Theme.renderResultCard)%stdpp with
    | Some render =>
        append_card (ThemeCard (render result highlights)
                       (default false (Theme.attachCardListeners <$> theme)))
    | None => append_card (DefaultCard index result)
    end) (imap (fun i r => (i, r)) (Page.searchResults page)).

(** Pagination goes through the client's page renderer; [linkPagination]
    then binds the buttons to the page that was rendered.  The did-you-mean
    box and the [afterRender] hook follow and write nothing modelled here. *)
Definition renderSearchResults (page : Page.t) : act () :=
  wrappers ← gets (fun w => search_results (doc w));
  match wrappers with
  | None => skip
  | Some _ =>
      hook ← gets (fun w => beforeRender (hooks (this w)));
      let page := match hook with Some f => f page | None => page end in
      modify (with_doc (set_pagination_for None));;
      modify (with_doc (set_search_results (Some [])));;
      let hasResults := bool_decide (0 < length (Page.searchResults page))%nat in
      if negb hasResults || (Page.totalResults page =? 0)%Z
      then modify (with_doc (set_search_results (Some [NoResults])))
      else
        template ← gets (fun w => resultTemplate (hooks (this w)));
        match template with
        | Some f => _renderWithCustomTemplate f page
        | None => _renderDefaultCards page
        end;;
        modify (with_doc (set_pagination_for (Some page)))
  end.

Definition showEmptyState : act () :=
  modify (with_doc (fun d => set_search_results ((fun _ => [EmptyState]) <$> search_results d) d)).

Definition showErrorState : act () :=
  modify (with_doc (fun d => set_search_results ((fun _ => [ErrorState]) <$> search_results d) d)).

(** ** Theme switching *)

Definition switchTheme (themeId : string) : act () :=
  key ← gets (fun w => read_opt (get (config (this w)) "theme") "localStorageKey");
  when (truthy key)
    (modify (with_localStorage (fun store => <[to_str key := themeId]> store));;
     emit (SetItem (to_str key) themeId));;
  _loadTheme themeId;;
  held ← gets (fun w => currentPage (this w));
  match held with
  | Some page => renderAllFacets page;; renderSearchResults page
  | None => skip
  end.

(** The theme the constructor loads: [this.config.theme?.default || 'default'] *)
Definition startup_theme (cfg : jsval) : string :=
  to_str (js_or (read_opt (get cfg "theme") "default") (JStr "default")).


(** ** Search, filter, paging

    A handler runs to its end once started; two handlers overlapping at an
    [await] are not modelled. *)

Definition search (query : string) : act (option Page.t) :=
  try_catch
    (hook ← gets (fun w => beforeSearch (hooks (this w)));
     let query := match hook with Some f => f query | None => query end in
     answer ← gets (fun w => search_answer (fsss (this w)) (trace w) query);
     emit (ClientSearch query);;
     page ← await answer;
     hook ← gets (fun w => afterSearch (hooks (this w)));
     ret (match hook with Some f => f page | None => Some page end))
    (fun error =>
       emit (ConsoleError "Search error:");;
       showErrorState;;
       ret None).

(** [attachAutocompleteWidget] and [updateResultsInfo] write to parts of the
    document that nothing here reads. *)
Definition initialize : act () :=
  queryTerm ← gets (fun w => url_query (doc w));
  match queryTerm with
  | Some term =>
      if String.eqb term "" then showEmptyState
      else
        found ← search term;
        match found with
        | Some page =>
            modify (with_this (set_currentPage (Some page)));;
            when (bool_decide (is_Some (Page.facets page)))
              (initFacetContainer page;; renderAllFacets page);;
            renderSearchResults page
        | None => skip
        end
  | None => showEmptyState
  end.

(** The names of the checked boxes under [.facet-option], in document order.
    Theme markup is taken to hold no such boxes. *)
Definition checked_values (d : document) : list string :=
  match facets_container d with
  | Some children =>
      children ≫= (fun el =>
        match el with
        | DefaultFacet _ boxes => (filter (fun b => b.2 = true) boxes).*1
        | ThemeFacet _ _ => []
        end)
  | None => []
  end.

(** [document.getElementById(id)?.value] *)
Definition input_value (input : option string) : jsval :=
  match input with Some v => JStr v | None => JUndefined end.

Section WithPlatform.
Context `{Platform}.

(** The block of [filter] under "Handle date filter" *)
Definition date_constraint : act () :=
  cfg ← gets (fun w => config (this w));
  dateFilter ← lift (read cfg "dateFilter");
  if truthy (get dateFilter "enabled") then
    startDateValue ← gets (fun w => input_value (start_date (doc w)));
    endDateValue ← gets (fun w => input_value (end_date (doc w)));
    if truthy startDateValue || truthy endDateValue then
      startISO ←
        (if truthy startDateValue
         then lift (toISOString (Date_new (JStr (to_str startDateValue +:+ "T00:00:00Z"))))
         else ret "*");
      endISO ←
        (if truthy endDateValue
         then lift (toISOString (Date_new (JStr (to_str endDateValue +:+ "T23:59:59Z"))))
         else ret "*");
      let dateFilterQuery :=
        to_str (get dateFilter "fieldName") +:+ ":[" +:+ startISO +:+ " TO " +:+ endISO +:+ "]" in
      emit (SetCustomParams (to_str (get dateFilter "solrFilterParam")) dateFilterQuery)
    else emit (DeleteCustomParams (get dateFilter "solrFilterParam"))
  else skip.

Definition filter (facet : Facet.t) (reset : bool) : act () :=
  values ← gets (fun w => checked_values (doc w));
  try_catch
    (let values := if reset then [] else values in
     date_constraint;;
     answer ← gets (fun w => filter_answer (fsss (this w)) (trace w) facet values);
     emit (FacetFilter (Facet.name facet) values);;
     page ← await answer;
     initFacetContainer page;;
     renderAllFacets page;;
     renderSearchResults page)
    (fun error => emit (ConsoleError "Filter error:")).

End WithPlatform.

(** The click listener that [linkPagination] puts on a pagination button *)
Definition pagination_click (pageNumber : Z) : act () :=
  bound ← gets (fun w => pagination_for (doc w));
  match bound with
  | None => skip
  | Some searchResultPage =>
      answer ← gets (fun w =>
        getPage_answer (fsss (this w)) (trace w) searchResultPage pageNumber);
      emit (GetPage pageNumber);;
      page ← await answer;
      renderSearchResults page
  end.

(** The [onclick] that [initFacetContainer] puts on the reset-all button *)
Definition reset_all_click : act () :=
  bound ← gets (fun w => reset_all_button (doc w));
  match bound with
  | Some (Some page) =>
      cfg ← gets (fun w => config (this w));
      dateFilter ← lift (read cfg "dateFilter");
      when (truthy (get dateFilter "enabled"))
        (modify (with_doc (fun d =>
           set_dates ((fun _ => "") <$> start_date d) ((fun _ => "") <$> end_date d) d));;
         emit (DeleteCustomParams (get dateFilter "solrFilterParam")));;
      answer ← gets (fun w => resetFacets_answer (fsss (this w)) (trace w) page);
      emit ResetFacets;;
      resetPage ← await answer;
      initFacetContainer resetPage;;
      renderAllFacets resetPage;;
      renderSearchResults resetPage
  | _ => skip
  end.

(** ** Construction

    [_init], which adds the settings button, writes nothing modelled here. *)

Definition constructor (smartSearchInstance : client) (userConfig : jsval)
    (functions : callbacks) (registry : gmap string Theme.t) : act () :=
  let userConfig := match userConfig with JUndefined => JObj [] | c => c end in
  modify (with_this (fun _ =>
    {| fsss := smartSearchInstance; config := _mergeConfig userConfig;
       hooks := functions; themeRegistry := registry;
       currentPage := None; currentTheme := None; currentThemeId := None;
       loadedThemeCSS := []; facetContainer := false |}));;
  cfg ← gets (fun w => config (this w));
  lift (_validateConfig cfg);;
  _loadTheme (startup_theme cfg).

(** ** The shipped themes ([window.SmartSearchThemes])

    The markup of a render override is cut down to the opening tag of its
    root element. *)
Module Themes.

Definition default : Theme.t :=
  {| Theme.cssFile := Some "themes/default/theme.css";
     Theme.renderFacet := None;
     Theme.renderResultCard := None;
     Theme.attachFacetListeners := false;
     Theme.attachCardListeners := false;
     Theme.init := true;
     Theme.destroy := true |}.

Definition minimal : Theme.t :=
  {| Theme.cssFile := Some "themes/minimal/theme.css";
     Theme.renderFacet := Some (fun facet =>
       "<div class='facet-group minimal-facet' data-facet-name='"
       +:+ Facet.name facet +:+ "'>");
     Theme.renderResultCard := Some (fun result highlights =>
       "<a class='result-link minimal-result'>");
     Theme.attachFacetListeners := true;
     Theme.attachCardListeners := true;
     Theme.init := true;
     Theme.destroy := true |}.

Definition magazine : Theme.t :=
  {| Theme.cssFile := Some "themes/magazine/theme.css";
     Theme.renderFacet := Some (fun facet =>
       "<div class='magazine-facet' data-facet-name='" +:+ Facet.name facet +:+ "'>");
     Theme.renderResultCard := Some (fun result highlights =>
       "<a class='magazine-result-link'>");
     Theme.attachFacetListeners := true;
     Theme.attachCardListeners := true;
     Theme.init := true;
     Theme.destroy := true |}.

Definition registry : gmap string Theme.t :=
  <["magazine" := magazine]> (<["minimal" := minimal]> (<["default" := default]> ∅)).

End Themes.

(** ** A worked session

    A page with the elements the library looks up, a project configuration
    with every required leaf, and a client with fixed answers. *)
Module Session.

Definition projectConfig : jsval :=
  JObj [
    ("server", JObj [
       ("defaultURL", JStr "https://search.example.org");
       ("defaultPreparedSearch", JStr "Docs")]);
    ("theme", JObj [
       ("enabled", JBool true);
       ("default", JStr "default");
       ("localStorageKey", JStr "smartsearch-theme")]);
    ("dateFilter", JObj [("enabled", JBool true); ("fieldName", JStr "meta_date")]);
    ("resultFields", JObj [
       ("title", JObj [("field", JStr "title")]);
       ("description", JObj [
          ("fields", JArr [JStr "content"; JStr "description"; JStr "text"])]);
       ("link", JObj [("fields", JArr [JStr "link"; JStr "url"])]);
       ("date", JObj [("field", JStr "meta_date")])])
  ].

Definition mime : Facet.t :=
  {| Facet.name := "mime_type"; Facet.displayName := None;
     Facet.counts := [("pdf", 7%Z); ("html", 5%Z)]; Facet.selectedValues := [] |}.

Definition mime_pdf : Facet.t :=
  {| Facet.name := "mime_type"; Facet.displayName := None;
     Facet.counts := [("pdf", 7%Z)]; Facet.selectedValues := ["pdf"] |}.

Definition doc1 : jsval := JObj [("title", JStr "Architecture"); ("text", JStr "Overview")].
Definition doc2 : jsval := JObj [("title", JStr "Manual"); ("link", JStr "/manual.pdf")].

Definition searched : Page.t :=
  {| Page.facets := Some [mime]; Page.searchResults := [(doc1, JUndefined); (doc2, JUndefined)];
     Page.totalResults := 12; Page.pageNumber := 1 |}.

Definition filtered : Page.t :=
  {| Page.facets := Some [mime_pdf]; Page.searchResults := [(doc2, JUndefined)];
     Page.totalResults := 7; Page.pageNumber := 1 |}.

Definition second : Page.t :=
  {| Page.facets := Some [mime]; Page.searchResults := [(doc2, JUndefined)];
     Page.totalResults := 12; Page.pageNumber := 2 |}.

Definition fixed_client : client :=
  {| search_answer := fun _ _ => Some searched;
     filter_answer := fun _ _ _ => Some filtered;
     getPage_answer := fun _ _ _ => Some second;
     resetFacets_answer := fun _ _ => Some searched |}.

Definition no_callbacks : callbacks :=
  {| beforeSearch := None; afterSearch := None; beforeRender := None;
     resultTemplate := None |}.

Definition page_loaded : world :=
  {| this := {| fsss := fixed_client; config := JObj []; hooks := no_callbacks;
                themeRegistry := ∅; currentPage := None; currentTheme := None;
                currentThemeId := None; loadedThemeCSS := []; facetContainer := false |};
     doc := {| body := Some []; loading := false; onDOMContentLoaded := [];
               links := []; next_node := 0;
               facets_container := Some []; search_results := Some [];
               pagination_for := None; reset_all_button := Some None;
               start_date := Some ""; end_date := Some "";
               url_query := Some "architecture" |};
     localStorage := ∅;
     trace := [] |}.

(** [new SmartSearchUI(client, SmartSearchConfig)] *)
Definition constructed : world :=
  after (constructor fixed_client projectConfig no_callbacks Themes.registry) page_loaded.

(** ... and [initialize()] *)
Definition initialized : world := after initialize constructed.

End Session.

(** ** Notions the statements use *)

(** What a key of the user's object contributes to the merge. *)
Definition merged_value (target : jsval) (key : string) (v : jsval) : jsval :=
  if _isObject v && has_key key target then _deepMerge (get target key) v else v.

(** [getField], read as the specification has it: with no candidate
    resolving, the configured fallback comes back as it is configured. *)
Definition fallback_returned_as_configured : Prop :=
  ∀ (config result : jsval) (fieldName : string) (candidates : list jsval),
    let fieldConfig := path config ["resultFields"; fieldName] in
    nullish result = false →
    truthy (get fieldConfig "field") = false →
    get fieldConfig "fields" = JArr candidates →
    (∀ c, c ∈ candidates → truthy (get result (to_str c)) = false) →
    getField config result fieldName = Normal (get fieldConfig "fallback").

(** An input holds a boundary when it is there and not empty. *)
Definition is_set (input : option string) : bool := truthy (input_value input).

(** One side of the range: the wildcard for a boundary that is not set,
    the ISO text of the boundary's instant for one that is. *)
Definition boundary `{Platform} (input : option string) (time_of_day : string) : string :=
  if is_set input then
    match Date_new (JStr (to_str (input_value input) +:+ time_of_day)) with
    | Some t => Date_iso t
    | None => ""
    end
  else "*".

(** What [filter] tells the client about dates before it filters. *)
Definition date_event `{Platform} (dateFilter : jsval) (d : document) : event :=
  if is_set (start_date d) || is_set (end_date d) then
    SetCustomParams (to_str (get dateFilter "solrFilterParam"))
      (to_str (get dateFilter "fieldName") +:+ ":["
       +:+ boundary (start_date d) "T00:00:00Z" +:+ " TO "
       +:+ boundary (end_date d) "T23:59:59Z" +:+ "]")
  else DeleteCustomParams (get dateFilter "solrFilterParam").

(** A boundary that is set reads as a date. *)
Definition reads_as_date `{Platform} (input : option string) (time_of_day : string) : Prop :=
  is_set input = true →
  is_Some (Date_new (JStr (to_str (input_value input) +:+ time_of_day))).

Definition is_hook (e : event) : bool :=
  match e with HookInit _ | HookDestroy _ => true | _ => false end.

Definition is_init_of (themeId : string) (e : event) : bool :=
  match e with HookInit t => String.eqb t themeId | _ => false end.

(** The stylesheet references of a theme in the document *)
Definition stylesheets_of (themeId : string) (d : document) : list link :=
  base.filter (fun l => data_theme l = themeId) (links d).

(** Theme activation, read as the specification has it: activating the
    active theme again invokes no activation hook. *)
Definition reactivation_invokes_no_hook : Prop :=
  ∀ (w : world) (themeId : string) (t : Theme.t),
    currentThemeId (this w) = Some themeId →
    currentTheme (this w) = Some t →
    themeRegistry (this w) !! themeId = Some t →
    base.filter (fun e => is_init_of themeId e = true) (trace (after (_loadTheme themeId) w))
    = base.filter (fun e => is_init_of themeId e = true) (trace w).


(** The links left once every link of [loaded] is detached. *)
Definition detached (loaded : list link) (ls : list link) : list link :=
  base.filter (fun l' => forallb (fun l => negb (same_node l l')) loaded = true) ls.

(** The stylesheet reference [_loadThemeCSS] adds for a theme, if it adds
    one: the theme names a stylesheet and the document has no link marked
    with the theme's id. *)
Definition added_stylesheet (t : Theme.t) (themeId : string) (present : list link)
    (fresh : nat) : list link :=
  match Theme.cssFile t with
  | Some cssFile =>
      if String.eqb cssFile "" then []
      else match list_find (fun l => data_theme l = themeId) present with
           | Some _ => []
           | None => [{| node := fresh; href := cssFile; data_theme := themeId |}]
           end
  | None => []
  end.

(** An operation keeps a relation between the world it starts from and the
    world it leaves. *)
Definition preserves {A : Type} (R : world → world → Prop) (m : act A) : Prop :=
  ∀ w, R w (m w).2.

(** The trace only grows. *)
Definition extends_trace (w w' : world) : Prop :=
  ∃ rest, trace w' = trace w ++ rest.

(** Everything of the document that rendering does not write. *)
Definition same_chrome (d d' : document) : Prop :=
  body d' = body d ∧ loading d' = loading d
  ∧ onDOMContentLoaded d' = onDOMContentLoaded d
  ∧ links d' = links d ∧ next_node d' = next_node d
  ∧ start_date d' = start_date d ∧ end_date d' = end_date d
  ∧ url_query d' = url_query d.

(** Rendering writes the containers and the handlers bound to a page, and
    nothing else. *)
Definition only_renders (w w' : world) : Prop :=
  this w' = this w ∧ localStorage w' = localStorage w ∧ trace w' = trace w
  ∧ same_chrome (doc w) (doc w').

(** Storage stays as it is and the trace only grows. *)
Definition keeps_storage (w w' : world) : Prop :=
  localStorage w' = localStorage w ∧ extends_trace w w'.

(** What the facet container shows stays in it; elements may be added
    after it. *)
Definition facets_stay (w w' : world) : Prop :=
  ∀ shown, facets_container (doc w) = Some shown →
    ∃ added, facets_container (doc w') = Some (shown ++ added).

(** The held page and the theme state stay as they are. *)
Definition keeps_page_and_theme (w w' : world) : Prop :=
  currentPage (this w') = currentPage (this w)
  ∧ currentTheme (this w') = currentTheme (this w)
  ∧ currentThemeId (this w') = currentThemeId (this w)
  ∧ loadedThemeCSS (this w') = loadedThemeCSS (this w)
  ∧ themeRegistry (this w') = themeRegistry (this w)
  ∧ config (this w') = config (this w)
  ∧ hooks (this w') = hooks (this w)
  ∧ fsss (this w') = fsss (this w)
  ∧ localStorage w' = localStorage w
  ∧ body (doc w') = body (doc w)
  ∧ links (doc w') = links (doc w).

(** ** Further notions: rendering, activation, handlers of the themes *)

(** ** Notions for what rendering leaves in the document *)

(** The card of one result: the theme's override if it has one, the built-in
    card otherwise. *)
Definition card_of (theme : option Theme.t) (index : nat) (entry : jsval * jsval) : card_el :=
  match (theme ≫= Theme.renderResultCard)%stdpp with
  | Some render =>
      ThemeCard (render entry.1 entry.2) (default false (Theme.attachCardListeners <$> theme))
  | None => DefaultCard index entry.1
  end.

(** The cards of a page: by the configured template, or one [card_of] per
    result. *)
Definition cards_of (u : ui) (page : Page.t) : list card_el :=
  match resultTemplate (hooks u) with
  | Some template =>
      (fun entry => TemplateCard (template entry.1 entry.2)) <$> Page.searchResults page
  | None => imap (card_of (currentTheme u)) (Page.searchResults page)
  end.

(** The page [renderSearchResults] works on, once the [beforeRender] hook
    has seen it. *)
Definition page_to_render (u : ui) (page : Page.t) : Page.t :=
  match beforeRender (hooks u) with Some f => f page | None => page end.

(** The facet as it is rendered: renamed when [facets.displayNames] has a
    truthy entry for its name. *)
Definition shown_facet (cfg : jsval) (facet : Facet.t) : Facet.t :=
  let displayName := get (path cfg ["facets"; "displayNames"]) (Facet.name facet) in
  if truthy displayName then Facet.setDisplayName (to_str displayName) facet else facet.

(** The check boxes of the built-in facet block *)
Definition boxes_of (facet : Facet.t) : list (string * bool) :=
  (fun count => (count.1, bool_decide (count.1 ∈ Facet.selectedValues facet)))
    <$> Facet.counts facet.

(** The block of one facet: the theme's override if it has one, the
    built-in block otherwise. *)
Definition facet_block (theme : option Theme.t) (facet : Facet.t) : facet_el :=
  match (theme ≫= Theme.renderFacet)%stdpp with
  | Some render =>
      ThemeFacet (render facet) (default false (Theme.attachFacetListeners <$> theme))
  | None => DefaultFacet facet (boxes_of facet)
  end.

(** The values of a facet that are both offered and selected, in the order
    they are offered. *)
Definition selected_offered (facet : Facet.t) : list string :=
  base.filter (fun value => value ∈ Facet.selectedValues facet) (Facet.counts facet).*1.

(** The configuration groups [renderAllFacets] reads through are there. *)
Definition facets_readable (cfg : jsval) : bool :=
  negb (nullish cfg)
  && negb (nullish (path cfg ["dateFilter"]))
  && negb (nullish (path cfg ["facets"]))
  && negb (nullish (path cfg ["facets"; "displayNames"])).

(** The checked boxes among the children of the facet container *)
Definition checked_values_of (children : list facet_el) : list string :=
  children ≫= (fun el =>
    match el with
    | DefaultFacet _ boxes => (base.filter (fun b => b.2 = true) boxes).*1
    | ThemeFacet _ _ => []
    end).

(** ** Worlds for worked cases *)

(** A client that rejects every call *)
Definition offline : client :=
  {| search_answer := fun _ _ => None;
     filter_answer := fun _ _ _ => None;
     getPage_answer := fun _ _ _ => None;
     resetFacets_answer := fun _ _ => None |}.

Definition with_client (c : client) (w : world) : world :=
  with_this (fun u =>
    {| fsss := c; config := config u; hooks := hooks u;
       themeRegistry := themeRegistry u; currentPage := currentPage u;
       currentTheme := currentTheme u; currentThemeId := currentThemeId u;
       loadedThemeCSS := loadedThemeCSS u; facetContainer := facetContainer u |}) w.



Definition set_config (cfg : jsval) (u : ui) : ui :=
  {| fsss := fsss u; config := cfg; hooks := hooks u; themeRegistry := themeRegistry u;
     currentPage := currentPage u; currentTheme := currentTheme u;
     currentThemeId := currentThemeId u; loadedThemeCSS := loadedThemeCSS u;
     facetContainer := facetContainer u |}.

(** ** The steps of [_loadTheme] as functions on worlds *)

(** The stylesheet step: the links of [sheet] are appended to the document
    and to the instance's list, one trace entry each. *)
Definition with_stylesheet (sheet : list link) (themeId : string) (w : world) : world :=
  with_this (fun u => set_loadedThemeCSS (loadedThemeCSS u ++ sheet) u)
    (with_trace (fun tr => tr ++ ((fun l => LinkAppended (node l) themeId) <$> sheet))
       (with_doc (fun d => set_links (links d ++ sheet) (length sheet + next_node d) d) w)).

(** The theme is stored on the instance once its stylesheet is in. *)
Definition with_theme (t : Theme.t) (themeId : string) (w : world) : world :=
  with_this (set_currentTheme (Some t) (Some themeId))
    (with_stylesheet (added_stylesheet t themeId (links (doc w)) (next_node (doc w)))
       themeId w).

(** [applyClass] on a document with a body *)
Definition with_class (themeId : string) (classes : list string) (init : option string)
    (w : world) : world :=
  let classed :=
    with_trace (fun tr => tr ++ [BodyClassAdd (theme_class themeId)])
      (with_doc (set_body (Some (classList_add (theme_class themeId) classes))) w) in
  match init with
  | Some active => with_trace (fun tr => tr ++ [HookInit active]) classed
  | None => classed
  end.

Definition loaded_message (themeId : string) : event :=
  ConsoleLog ("[SmartSearchUI] Theme '" +:+ themeId +:+ "' loaded successfully").

(** The hook calls of a trace *)
Definition hook_calls (events : list event) : list event :=
  base.filter (fun e => is_hook e = true) events.

(** [init], if the theme has one *)
Definition init_call (t : Theme.t) (themeId : string) : list event :=
  if Theme.init t then [HookInit themeId] else [].

Definition destroy_call (t : Theme.t) (themeId : string) : list event :=
  if Theme.destroy t then [HookDestroy themeId] else [].

Definition set_themeRegistry (registry : gmap string Theme.t) (u : ui) : ui :=
  {| fsss := fsss u; config := config u; hooks := hooks u; themeRegistry := registry;
     currentPage := currentPage u; currentTheme := currentTheme u;
     currentThemeId := currentThemeId u; loadedThemeCSS := loadedThemeCSS u;
     facetContainer := facetContainer u |}.

(** An instance with the shipped themes and the project configuration, no
    theme active yet, on the loaded page *)
Definition themeless : world :=
  with_this (fun u => set_themeRegistry Themes.registry
                        (set_config (_mergeConfig Session.projectConfig) u))
    Session.page_loaded.

(** The same while the document is still loading and has no body *)
Definition in_head : world :=
  with_doc (fun d => set_ready [] true (set_body None d)) themeless.

(** ** Nested user values *)


(** ** Tag filters of the themes

    The click listener that the minimal and the magazine theme put on a tag
    ([attachFacetListeners]); [selectedValues] are the values of the tags
    that are active once the clicked tag is toggled.  The date block is the
    one of [filter], word for word, but stands before the [try]. *)
Section ThemeHandlers.
Context `{Platform}.



End ThemeHandlers.



(** ** The results line ([updateResultsInfo])

    A page is the object the client hands over.  Arithmetic is on integers:
    where a count is not a number the text is [NotNumbers], the conversions
    of other values to numbers are not part of the embedding. *)








(** ** The settings form ([openSettingsModal])

    [trim] is [String.prototype.trim].  The reload that follows a save is
    not part of the embedding. *)




Section Settings.
Variable trim : string → string.



End Settings.



(** ** The magazine theme's expand button ([_addExpandButton])

    The filter bar as the function sees and writes it: for each facet block
    of [facets-container] whether it carries [magazine-facet-hidden] ([None]
    while the bar has no container), the same for the date filter box if the
    bar has one, whether the bar is [magazine-filters-expanded], and, once
    the button is in, its text and whether it is [magazine-expanded]. *)
Module Magazine.

Record bar : Type := {
  facets : option (list bool);
  dateFilter : option bool;
  expanded : bool;
  button : option (string * bool)
}.

(** One call either ends, or sets the timer for the next with the retry
    counted up. *)
Inductive outcome : Type :=
  | Retry (retryCount : nat)
  | Done (b : bar).

(** [facets.forEach((facet, index) => { if (index > 0) ... add(hidden) })] *)
Definition hide_after_first (hidden : list bool) : list bool :=
  imap (fun index was => if (0 <? index)%nat then true else was) hidden.

Definition more_text (hideableCount : nat) : string :=
  "Show more filters (" +:+ pretty hideableCount +:+ ")".

Definition hideableCount (found : list bool) (dateFilter : option bool) : nat :=
  (if (1 <? length found)%nat then length found - 1 else 0)
  + (match dateFilter with Some _ => 1 | None => 0 end).

Definition _addExpandButton (b : bar) (retryCount : nat) : outcome :=
  match facets b with
  | None => if (retryCount <? 5)%nat then Retry (retryCount + 1) else Done b
  | Some found =>
      if (length found =? 0)%nat && (retryCount <? 5)%nat then Retry (retryCount + 1)
      else
        let count := hideableCount found (dateFilter b) in
        if (count =? 0)%nat then Done b
        else Done {| facets := Some (hide_after_first found);
                     dateFilter := (fun _ => true) <$> dateFilter b;
                     expanded := expanded b;
                     button := Some (more_text count, false) |}
  end.

(** The chain of timers: [view n] is the bar as the call with retry count
    [n] finds it, [calls] bounds the calls that are followed. *)
Fixpoint chain (calls : nat) (view : nat → bar) (retryCount : nat) : option bar :=
  match calls with
  | 0 => None
  | S calls =>
      match _addExpandButton (view retryCount) retryCount with
      | Done b => Some b
      | Retry next => chain calls view next
      end
  end.

(** The click listener of the button; [count] is the [hideableCount] the
    button was made with, and the bar holds the blocks it was made for. *)
Definition expand_click (count : nat) (b : bar) : bar :=
  if expanded b then
    {| facets := hide_after_first <$> facets b;
       dateFilter := (fun _ : bool => true) <$> dateFilter b;
       expanded := false;
       button := (fun _ : string * bool => (more_text count, false)) <$> button b |}
  else
    {| facets := fmap (M := list) (fun _ : bool => false) <$> facets b;
       dateFilter := (fun _ : bool => false) <$> dateFilter b;
       expanded := true;
       button := (fun _ : string * bool => ("Show fewer filters", true)) <$> button b |}.

(** How many of the bar's items are hidden *)
Definition hidden_count (b : bar) : nat :=
  length (base.filter (fun hidden => hidden = true) (default [] (facets b)))
  + (match dateFilter b with Some true => 1 | _ => 0 end).

End Magazine.

(** * Configuration merge *)

Lemma lookup_set_prop (key key' : string) (v : jsval) (props : list (string * jsval)) :
  lookup_prop key' (set_prop key v props)
  = if String.eqb key key' then Some v else lookup_prop key' props.
Proof.
  induction props as [|[k w] rest IH]; simpl.
  - destruct (String.eqb key key'); reflexivity.
  - destruct (String.eqb_spec k key) as [->|Hk]; simpl.
    + destruct (String.eqb key key'); reflexivity.
    + rewrite IH.
      destruct (String.eqb_spec k key') as [->|Hk']; [|reflexivity].
      destruct (String.eqb_spec key key') as [->|_]; [contradiction|reflexivity].
Qed.

Lemma lookup_prop_None (key : string) (props : list (string * jsval)) :
  key ∉ props.*1 → lookup_prop key props = None.
Proof.
  induction props as [|[k w] rest IH]; simpl; [reflexivity|].
  intros Hnot. destruct (String.eqb k key) eqn:Hk.
  - apply String.eqb_eq in Hk as ->. exfalso. apply Hnot. left.
  - apply IH. intros Hin. apply Hnot. right. exact Hin.
Qed.

Lemma _deepMerge_objects (target source : list (string * jsval)) :
  _deepMerge (JObj target) (JObj source)
  = JObj (foldl (merge_step _deepMerge (JObj target)) target source).
Proof. reflexivity. Qed.

Lemma merge_step_lookup (target : jsval) (output : list (string * jsval))
    (key : string) (v : jsval) (key' : string) :
  lookup_prop key' (merge_step _deepMerge target output (key, v))
  = if String.eqb key key' then Some (merged_value target key v)
    else lookup_prop key' output.
Proof.
  unfold merge_step, merged_value.
  destruct (_isObject v); simpl; [|apply lookup_set_prop].
  destruct (has_key key target); simpl; apply lookup_set_prop.
Qed.

Lemma foldl_merge_lookup (target : jsval) (source output : list (string * jsval))
    (key : string) :
  NoDup source.*1 →
  lookup_prop key (foldl (merge_step _deepMerge target) output source)
  = match lookup_prop key source with
    | Some v => Some (merged_value target key v)
    | None => lookup_prop key output
    end.
Proof.
  revert output. induction source as [|[k v] rest IH]; intros output Hnd; [reflexivity|].
  rewrite fmap_cons in Hnd. apply NoDup_cons in Hnd as [Hk Hnd].
  cbn [foldl]. rewrite IH by exact Hnd. rewrite merge_step_lookup.
  cbn [lookup_prop].
  destruct (String.eqb_spec k key) as [->|_]; [|reflexivity].
  rewrite lookup_prop_None by exact Hk. reflexivity.
Qed.

(** Key by key, the merge of two objects: a key the user does not supply
    keeps the default; a key the user supplies takes the user's value, merged
    into the default's value when the user's value is an object and the
    default has the key. *)
Lemma deepMerge_get (target source : list (string * jsval)) (key : string) :
  NoDup source.*1 →
  get (_deepMerge (JObj target) (JObj source)) key
  = match lookup_prop key source with
    | Some v => merged_value (JObj target) key v
    | None => get (JObj target) key
    end.
Proof.
  intros Hnd. rewrite _deepMerge_objects. simpl.
  rewrite foldl_merge_lookup by exact Hnd.
  destruct (lookup_prop key source); reflexivity.
Qed.

(** A user value that is not an object (a string, a number, an array, ...)
    replaces the default. *)
Lemma deepMerge_user_leaf (target source : list (string * jsval)) (key : string) (v : jsval) :
  NoDup source.*1 → lookup_prop key source = Some v → _isObject v = false →
  get (_deepMerge (JObj target) (JObj source)) key = v.
Proof.
  intros Hnd Hv Hleaf. rewrite deepMerge_get, Hv by exact Hnd.
  unfold merged_value. rewrite Hleaf. reflexivity.
Qed.

(** A key the user leaves out stays at its default. *)
Lemma deepMerge_sibling_default (target source : list (string * jsval)) (key : string) :
  NoDup source.*1 → lookup_prop key source = None →
  get (_deepMerge (JObj target) (JObj source)) key = get (JObj target) key.
Proof. intros Hnd Hv. rewrite deepMerge_get, Hv by exact Hnd. reflexivity. Qed.

(** Objects on both sides merge key-wise. *)
Lemma deepMerge_nested (target source : list (string * jsval)) (key : string)
    (tv sv : list (string * jsval)) :
  NoDup source.*1 →
  lookup_prop key target = Some (JObj tv) → lookup_prop key source = Some (JObj sv) →
  get (_deepMerge (JObj target) (JObj source)) key = _deepMerge (JObj tv) (JObj sv).
Proof.
  intros Hnd Ht Hs. rewrite deepMerge_get, Hs by exact Hnd.
  unfold merged_value, has_key, get. rewrite Ht.
  rewrite bool_decide_eq_true_2 by eauto. reflexivity.
Qed.

(** Only [features.dateFilter] overridden: the sibling flags keep their
    defaults. *)
Example merge_one_feature_flag :
  path (_mergeConfig (JObj [("features", JObj [("dateFilter", JBool false)])])) ["features"]
  = JObj [("settingsModal", JBool true); ("fieldInspector", JBool true);
          ("dateFilter", JBool false); ("instantFiltering", JBool true);
          ("didYouMean", JBool true); ("smoothScrolling", JBool true)].
Proof. reflexivity. Qed.

(** C1 (the code departs from the claim).  Where the default holds a value
    that is not an object ([null], say) and the user supplies an object,
    [_deepMerge] recurses into the default's value and returns a fresh empty
    object: the user's object and its leaves are lost, on a bare pair of
    objects and on the library's own defaults alike. *)
Theorem deepMerge_object_over_null_is_lost :
  _deepMerge (JObj [("a", JNull)]) (JObj [("a", JObj [("b", JNum 1)])])
  = JObj [("a", JObj [])]
  ∧ path (_mergeConfig (JObj [("resultTemplate", JObj [("layout", JStr "grid")])]))
      ["resultTemplate"] = JObj [].
Proof. split; reflexivity. Qed.

(** * Configuration validation *)

Lemma read_present (v : jsval) (key : string) :
  nullish v = false → read v key = Normal (get v key).
Proof. destruct v; simpl; intros; done. Qed.










(** A configuration with every required leaf passes. *)
Example validateConfig_accepts_project_config :
  _validateConfig (_mergeConfig Session.projectConfig) = Normal ().
Proof. reflexivity. Qed.

(** Where the user puts [null] in place of a group, validation stops at its
    first read of the group. *)
Example validateConfig_null_group :
  _validateConfig (_mergeConfig (JObj [("server", JNull)])) = Throw (TypeError "defaultURL").
Proof. reflexivity. Qed.

(** * Field extraction *)

(** Run the property reads whose object is known to be there. *)
Ltac run_reads :=
  repeat (rewrite read_present by assumption; cbn [mbind completion_bind]).

(** The loop over the candidates stops at the first one whose value in the
    result is truthy. *)
Lemma first_set_find (result : jsval) (candidates : list jsval) :
  nullish result = false →
  first_set result candidates
  = Normal (match list_find (fun c => truthy (get result (to_str c)) = true) candidates with
            | Some (_, c) => Some (first_or_self (get result (to_str c)))
            | None => None
            end).
Proof.
  intros Hresult. induction candidates as [|c rest IH]; [reflexivity|].
  cbn [first_set]. run_reads. cbn [list_find].
  destruct (truthy (get result (to_str c))) eqn:Hc.
  - rewrite decide_True by reflexivity. reflexivity.
  - rewrite decide_False by discriminate. rewrite IH.
    destruct (list_find _ rest) as [[i c']|]; reflexivity.
Qed.

(** An array-valued field reduces to its first element. *)
Lemma first_or_self_array (xs : list jsval) :
  first_or_self (JArr xs) = default JUndefined (head xs).
Proof. destruct xs; reflexivity. Qed.

(** C3 (as amended).  [getField] resolves the logical name through the
    [resultFields] entry.  With a single physical field configured it returns
    that field's value when it is truthy.  With a list of candidates it
    returns the value of the first candidate whose value is truthy.  A value
    that is an array comes back as its first element.  When nothing resolves
    it returns the configured fallback if that is truthy, and [null]
    otherwise; [null] also for a name with no entry and for an entry that
    names no field. *)
Theorem getField_resolution (config result : jsval) (fieldName : string) :
  let fieldConfig := path config ["resultFields"; fieldName] in
  nullish config = false →
  nullish (get config "resultFields") = false →
  nullish result = false →
  (truthy fieldConfig = true → truthy (get fieldConfig "field") = true →
   getField config result fieldName
   = Normal (let value := get result (to_str (get fieldConfig "field")) in
             if truthy value then first_or_self value
             else js_or (get fieldConfig "fallback") JNull))
  ∧ (truthy fieldConfig = true → truthy (get fieldConfig "field") = false →
     ∀ candidates, get fieldConfig "fields" = JArr candidates →
       getField config result fieldName
       = Normal (match list_find (fun c => truthy (get result (to_str c)) = true)
                         candidates with
                 | Some (_, c) => first_or_self (get result (to_str c))
                 | None => js_or (get fieldConfig "fallback") JNull
                 end))
  ∧ (truthy fieldConfig = false
     ∨ (truthy (get fieldConfig "field") = false
        ∧ truthy (get fieldConfig "fields") = false) →
     getField config result fieldName = Normal JNull)
  ∧ (∀ xs, first_or_self (JArr xs) = default JUndefined (head xs))
  ∧ (∀ fallback, js_or fallback JNull = if truthy fallback then fallback else JNull).
Proof.
  intros fieldConfig Hconfig Hfields Hresult.
  unfold fieldConfig, path in *. cbn [foldl] in *.
  repeat split.
  - intros Hentry Hsingle. unfold getField.
    run_reads. rewrite Hentry, Hsingle. cbn [negb]. run_reads.
    destruct (truthy (get result _)); reflexivity.
  - intros Hentry Hsingle candidates Hlist. unfold getField.
    run_reads. rewrite Hentry, Hsingle, Hlist. cbn [negb truthy iterate mbind completion_bind].
    rewrite first_set_find by assumption. cbn [mbind completion_bind].
    destruct (list_find _ candidates) as [[i c]|]; reflexivity.
  - intros [Hentry|[Hsingle Hlist]]; unfold getField; run_reads.
    + rewrite Hentry. reflexivity.
    + rewrite Hsingle, Hlist. destruct (truthy (get (get config "resultFields") fieldName));
        reflexivity.
  - apply first_or_self_array.
Qed.

Lemma getField_resolution_witness :
  let config := _mergeConfig Session.projectConfig in
  let result := JObj [("text", JStr "Overview")] in
  path config ["resultFields"; "description"; "fields"]
  = JArr [JStr "content"; JStr "description"; JStr "text"]
  ∧ getField config result "description" = Normal (JStr "Overview")
  ∧ getField config (JObj []) "description" = Normal (JStr "No description available").
Proof.
  intros config result. split; [reflexivity|]. split.
  - exact (proj1 (proj2 (getField_resolution config result "description"
             eq_refl eq_refl eq_refl)) eq_refl eq_refl _ eq_refl).
  - exact (proj1 (proj2 (getField_resolution config (JObj []) "description"
             eq_refl eq_refl eq_refl)) eq_refl eq_refl _ eq_refl).
Defined.

(** C3 (as stated) fails where the configured fallback is falsy: with the
    fallback set to the empty string and no candidate resolving, [getField]
    returns [null], not the empty string. *)
Lemma getField_empty_fallback_gives_null : ¬ fallback_returned_as_configured.
Proof.
  intros Hclaim.
  pose (user := JObj [("resultFields", JObj [("description",
                  JObj [("fields", JArr [JStr "content"]); ("fallback", JStr "")])])]).
  specialize (Hclaim (_mergeConfig user) (JObj []) "description" [JStr "content"]
                eq_refl eq_refl eq_refl).
  assert (Hnone : ∀ c, c ∈ [JStr "content"] → truthy (get (JObj []) (to_str c)) = false).
  { intros c Hc. reflexivity. }
  specialize (Hclaim Hnone). vm_compute in Hclaim. discriminate Hclaim.
Qed.

(** An empty array counts as a value: it stops the search and reduces to
    [undefined]. *)
Example getField_empty_array :
  getField (_mergeConfig Session.projectConfig)
    (JObj [("content", JArr []); ("text", JStr "Overview")]) "description"
  = Normal JUndefined.
Proof. reflexivity. Qed.

(** * Date formatting *)

Section FormatDate.
Context `{Platform}.
Variables (config result : jsval).
Let dateConfig := path config ["resultFields"; "date"].
Let dateValue := get result (to_str (get dateConfig "field")).
Hypothesis config_present : nullish config = false.
Hypothesis resultFields_present : nullish (get config "resultFields") = false.
Hypothesis dateConfig_present : nullish dateConfig = false.
Hypothesis result_present : nullish result = false.

Lemma formatDate_unfold :
  formatDate config result
  = if negb (truthy dateValue) then Normal (get dateConfig "fallback", [])
    else match toLocaleDateString (Date_new dateValue)
                 (get dateConfig "locale") (get dateConfig "format") with
         | Normal text => Normal (JStr text, [])
         | Throw e => Normal (get dateConfig "fallback", ["Date parsing error:"])
         end.
Proof.
  unfold dateValue, dateConfig, path in *. cbn [foldl] in *.
  unfold formatDate. run_reads. reflexivity.
Qed.

(** A missing (or falsy) date field gives the configured fallback. *)
Lemma formatDate_missing :
  truthy dateValue = false →
  formatDate config result = Normal (get dateConfig "fallback", []).
Proof. intros Hmissing. rewrite formatDate_unfold, Hmissing. reflexivity. Qed.

(** A value the platform reads as a date comes back formatted with the
    configured locale and date style. *)
Lemma formatDate_parsed (t : Z) (text : string) :
  truthy dateValue = true →
  Date_new dateValue = Some t →
  Intl_format (get dateConfig "locale") (get dateConfig "format") t = Normal text →
  formatDate config result = Normal (JStr text, []).
Proof.
  intros Hset Hdate Htext. rewrite formatDate_unfold, Hset, Hdate. unfold toLocaleDateString.
  rewrite Htext. reflexivity.
Qed.

(** A value the platform does not read as a date is not an error for
    [toLocaleDateString]: the [catch] is not entered, nothing is logged, and
    the text "Invalid Date" is returned in place of the fallback. *)
Lemma formatDate_invalid_date :
  truthy dateValue = true →
  Date_new dateValue = None →
  formatDate config result = Normal (JStr "Invalid Date", []).
Proof. intros Hset Hdate. rewrite formatDate_unfold, Hset, Hdate. reflexivity. Qed.

(** The fallback of the [catch] is reached when the formatter rejects the
    locale or the style. *)
Lemma formatDate_rejected_locale (t : Z) (e : js_error) :
  truthy dateValue = true →
  Date_new dateValue = Some t →
  Intl_format (get dateConfig "locale") (get dateConfig "format") t = Throw e →
  formatDate config result = Normal (get dateConfig "fallback", ["Date parsing error:"]).
Proof.
  intros Hset Hdate Htext. rewrite formatDate_unfold, Hset, Hdate. unfold toLocaleDateString.
  rewrite Htext. reflexivity.
Qed.

(** [formatDate] does not throw. *)
Lemma formatDate_returns :
  ∃ value log, formatDate config result = Normal (value, log).
Proof.
  rewrite formatDate_unfold. destruct (truthy dateValue); cbn; [|eauto].
  destruct (toLocaleDateString _ _ _); eauto.
Qed.

End FormatDate.

(** C7 (the code departs from the claim).  A date field holding text that
    is no date makes [formatDate] return "Invalid Date", where the claim has
    the configured fallback "No date". *)
Theorem formatDate_unparseable_is_not_the_fallback :
  let config := _mergeConfig Session.projectConfig in
  @formatDate IsoDates.platform config (JObj [("meta_date", JStr "not a date")])
  = Normal (JStr "Invalid Date", [])
  ∧ path config ["resultFields"; "date"; "fallback"] = JStr "No date".
Proof. split; reflexivity. Qed.

Example formatDate_formats :
  @formatDate IsoDates.platform (_mergeConfig Session.projectConfig)
    (JObj [("meta_date", JStr "2024-05-17")])
  = Normal (JStr "May 17, 2024", []).
Proof. reflexivity. Qed.

Example formatDate_falls_back :
  @formatDate IsoDates.platform (_mergeConfig Session.projectConfig) (JObj [])
  = Normal (JStr "No date", []).
Proof. reflexivity. Qed.

(** * What an operation leaves alone *)

Section Preserves.
Variable R : world → world → Prop.
Hypothesis R_refl : ∀ w, R w w.
Hypothesis R_trans : ∀ a b c, R a b → R b c → R a c.

Lemma preserves_ret {A : Type} (a : A) : preserves R (ret a).
Proof. intros w. apply R_refl. Qed.

Lemma preserves_skip : preserves R skip.
Proof. apply preserves_ret. Qed.

Lemma preserves_throw {A : Type} (e : js_error) : preserves R (@throw A e).
Proof. intros w. apply R_refl. Qed.

Lemma preserves_lift {A : Type} (c : completion A) : preserves R (lift c).
Proof. intros w. apply R_refl. Qed.

Lemma preserves_gets {A : Type} (f : world → A) : preserves R (gets f).
Proof. intros w. apply R_refl. Qed.

Lemma preserves_await {A : Type} (answer : option A) : preserves R (await answer).
Proof. destruct answer; [apply preserves_ret|apply preserves_throw]. Qed.

Lemma preserves_modify (f : world → world) :
  (∀ w, R w (f w)) → preserves R (modify f).
Proof. intros Hf w. apply Hf. Qed.

Lemma preserves_bind {A B : Type} (m : act A) (f : A → act B) :
  preserves R m → (∀ a, preserves R (f a)) → preserves R (bind m f).
Proof.
  intros Hm Hf w. unfold bind. specialize (Hm w).
  destruct (m w) as [[a|e] w']; simpl in *; [|exact Hm].
  eapply R_trans; [exact Hm|apply Hf].
Qed.

Lemma preserves_when (cond : bool) (m : act ()) :
  preserves R m → preserves R (when cond m).
Proof. intros Hm. destruct cond; [exact Hm|apply preserves_skip]. Qed.

Lemma preserves_forEach {A : Type} (f : A → act ()) (xs : list A) :
  (∀ x, preserves R (f x)) → preserves R (forEach f xs).
Proof.
  intros Hf. induction xs as [|x rest IH]; [apply preserves_skip|].
  apply preserves_bind; [apply Hf|intros _; exact IH].
Qed.

Lemma preserves_try_catch {A : Type} (m : act A) (handler : js_error → act A) :
  preserves R m → (∀ e, preserves R (handler e)) → preserves R (try_catch m handler).
Proof.
  intros Hm Hh w. unfold try_catch. specialize (Hm w).
  destruct (m w) as [[a|e] w']; simpl in *; [exact Hm|].
  eapply R_trans; [exact Hm|apply Hh].
Qed.

End Preserves.

Lemma extends_trace_refl (w : world) : extends_trace w w.
Proof. exists []. symmetry. apply app_nil_r. Qed.

Lemma extends_trace_trans (a b c : world) :
  extends_trace a b → extends_trace b c → extends_trace a c.
Proof.
  intros [r1 H1] [r2 H2]. exists (r1 ++ r2). rewrite H2, H1. symmetry. apply app_assoc.
Qed.

Lemma only_renders_refl (w : world) : only_renders w w.
Proof. unfold only_renders, same_chrome. tauto. Qed.

Lemma only_renders_trans (a b c : world) :
  only_renders a b → only_renders b c → only_renders a c.
Proof.
  unfold only_renders, same_chrome. intros H1 H2.
  destruct_and!. repeat split; congruence.
Qed.

Lemma keeps_page_and_theme_refl (w : world) : keeps_page_and_theme w w.
Proof. unfold keeps_page_and_theme. tauto. Qed.

Lemma keeps_page_and_theme_trans (a b c : world) :
  keeps_page_and_theme a b → keeps_page_and_theme b c → keeps_page_and_theme a c.
Proof.
  unfold keeps_page_and_theme. intros H1 H2.
  destruct_and!. repeat split; congruence.
Qed.

Lemma keeps_storage_refl (w : world) : keeps_storage w w.
Proof. split; [reflexivity|apply extends_trace_refl]. Qed.

Lemma keeps_storage_trans (a b c : world) :
  keeps_storage a b → keeps_storage b c → keeps_storage a c.
Proof.
  intros [S1 T1] [S2 T2]. split; [congruence|].
  eapply extends_trace_trans; eassumption.
Qed.

Lemma facets_stay_refl (w : world) : facets_stay w w.
Proof. intros shown Hshown. exists []. rewrite app_nil_r. exact Hshown. Qed.

Lemma facets_stay_trans (a b c : world) :
  facets_stay a b → facets_stay b c → facets_stay a c.
Proof.
  intros Hab Hbc shown Hshown.
  destruct (Hab shown Hshown) as [added1 H1].
  destruct (Hbc _ H1) as [added2 H2].
  exists (added1 ++ added2). rewrite H2, app_assoc. reflexivity.
Qed.

Ltac relation_laws :=
  first [ exact extends_trace_refl | exact extends_trace_trans
        | exact only_renders_refl | exact only_renders_trans
        | exact keeps_page_and_theme_refl | exact keeps_page_and_theme_trans
        | exact keeps_storage_refl | exact keeps_storage_trans
        | exact facets_stay_refl | exact facets_stay_trans ].

(** Take an operation apart down to its writes. *)
Ltac frame_step :=
  first
    [ apply preserves_bind | apply preserves_try_catch | apply preserves_when
    | apply preserves_forEach | apply preserves_gets | apply preserves_lift
    | apply preserves_await | apply preserves_throw | apply preserves_skip
    | apply preserves_ret
    | match goal with
      | |- preserves _ (match ?x with _ => _ end) => destruct x
      | |- preserves _ (if ?x then _ else _) => destruct x
      | |- preserves _ (let '(_, _) := ?x in _) => destruct x
      end ];
  try relation_laws;
  try match goal with |- ∀ _, _ => intros ? end.

(** A write to the document, to the instance or to storage leaves the trace;
    an [emit] adds one entry. *)
Lemma modify_extends_trace (f : world → world) :
  (∀ w, trace (f w) = trace w) → preserves extends_trace (modify f).
Proof. intros Hf w. exists []. simpl. rewrite Hf. symmetry. apply app_nil_r. Qed.

Lemma emit_extends_trace (e : event) : preserves extends_trace (emit e).
Proof. intros w. exists [e]. reflexivity. Qed.

Ltac trace_grows :=
  repeat first
    [ frame_step
    | apply emit_extends_trace
    | apply modify_extends_trace; intros ?; reflexivity ].

Lemma initFacetContainer_extends_trace (page : Page.t) :
  preserves extends_trace (initFacetContainer page).
Proof. unfold initFacetContainer. trace_grows. Qed.

Lemma preserves_mono {A : Type} (R S : world → world → Prop) (m : act A) :
  (∀ w w', R w w' → S w w') → preserves R m → preserves S m.
Proof. intros Hsub Hm w. apply Hsub, Hm. Qed.

Lemma only_renders_extends_trace (w w' : world) : only_renders w w' → extends_trace w w'.
Proof. intros (_ & _ & Htrace & _). exists []. rewrite Htrace. symmetry. apply app_nil_r. Qed.

Lemma only_renders_keeps_page_and_theme (w w' : world) :
  only_renders w w' → keeps_page_and_theme w w'.
Proof.
  unfold only_renders, same_chrome, keeps_page_and_theme.
  intros (Hthis & Hstore & _ & Hbody & _ & _ & Hlinks & _). rewrite Hthis. tauto.
Qed.

Create HintDb frame discriminated.

(** Rendering *)
Ltac renders :=
  repeat first
    [ solve [auto with frame nocore]
    | frame_step
    | apply preserves_modify; intros ?;
      unfold only_renders, same_chrome; simpl; repeat split; reflexivity ].

Lemma append_facet_only_renders (el : facet_el) : preserves only_renders (append_facet el).
Proof. unfold append_facet. renders. Qed.

Lemma append_card_only_renders (el : card_el) : preserves only_renders (append_card el).
Proof. unfold append_card. renders. Qed.

#[local] Hint Resolve append_facet_only_renders append_card_only_renders : frame.

Lemma _renderFacetDefault_only_renders (facet : Facet.t) :
  preserves only_renders (_renderFacetDefault facet).
Proof. unfold _renderFacetDefault. renders. Qed.

#[local] Hint Resolve _renderFacetDefault_only_renders : frame.

Lemma renderFacet_only_renders (facet : Facet.t) :
  preserves only_renders (renderFacet facet).
Proof. unfold renderFacet. renders. Qed.

#[local] Hint Resolve renderFacet_only_renders : frame.

Lemma renderAllFacets_only_renders (page : Page.t) :
  preserves only_renders (renderAllFacets page).
Proof. unfold renderAllFacets. renders. Qed.

Lemma _renderWithCustomTemplate_only_renders (template : jsval → jsval → string)
    (page : Page.t) :
  preserves only_renders (_renderWithCustomTemplate template page).
Proof. unfold _renderWithCustomTemplate. renders. Qed.

Lemma _renderDefaultCards_only_renders (page : Page.t) :
  preserves only_renders (_renderDefaultCards page).
Proof. unfold _renderDefaultCards. renders. Qed.

#[local] Hint Resolve renderAllFacets_only_renders _renderWithCustomTemplate_only_renders
  _renderDefaultCards_only_renders : frame.

Lemma renderSearchResults_only_renders (page : Page.t) :
  preserves only_renders (renderSearchResults page).
Proof. unfold renderSearchResults. renders. Qed.

#[local] Hint Resolve renderSearchResults_only_renders : frame.

Lemma showErrorState_only_renders : preserves only_renders showErrorState.
Proof. unfold showErrorState. renders. Qed.

Lemma showEmptyState_only_renders : preserves only_renders showEmptyState.
Proof. unfold showEmptyState. renders. Qed.

(** The handlers: the held page and the theme state stay. *)
Ltac keeps_state :=
  repeat first
    [ solve [auto with frame nocore]
    | solve [eapply preserves_mono;
             [exact only_renders_keeps_page_and_theme|auto with frame nocore]]
    | frame_step
    | apply preserves_modify; intros ?;
      unfold keeps_page_and_theme; simpl; repeat split; reflexivity ].

Ltac trace_only_grows :=
  repeat first
    [ solve [auto with frame nocore]
    | solve [eapply preserves_mono;
             [exact only_renders_extends_trace|auto with frame nocore]]
    | frame_step
    | apply emit_extends_trace
    | apply modify_extends_trace; intros ?; reflexivity ].

Lemma initFacetContainer_keeps_page_and_theme (page : Page.t) :
  preserves keeps_page_and_theme (initFacetContainer page).
Proof. unfold initFacetContainer, emit. keeps_state. Qed.

#[local] Hint Resolve initFacetContainer_keeps_page_and_theme
  initFacetContainer_extends_trace : frame.

Section HandlersWithPlatform.
Context `{Platform}.

Lemma date_constraint_keeps_page_and_theme : preserves keeps_page_and_theme date_constraint.
Proof. unfold date_constraint, emit. keeps_state. Qed.

Lemma date_constraint_extends_trace : preserves extends_trace date_constraint.
Proof. unfold date_constraint. trace_only_grows. Qed.

Hint Resolve date_constraint_keeps_page_and_theme date_constraint_extends_trace : frame.

(** [filter] does not write [currentPage]. *)
Lemma filter_keeps_page_and_theme (facet : Facet.t) (reset : bool) :
  preserves keeps_page_and_theme (filter facet reset).
Proof. unfold filter, emit. keeps_state. Qed.

Lemma filter_extends_trace (facet : Facet.t) (reset : bool) :
  preserves extends_trace (filter facet reset).
Proof. unfold filter. trace_only_grows. Qed.

End HandlersWithPlatform.

(** Nor does a click on a pagination button, nor the reset-all button. *)
Lemma pagination_click_keeps_page_and_theme (pageNumber : Z) :
  preserves keeps_page_and_theme (pagination_click pageNumber).
Proof. unfold pagination_click, emit. keeps_state. Qed.

Lemma reset_all_click_keeps_page_and_theme :
  preserves keeps_page_and_theme reset_all_click.
Proof. unfold reset_all_click, emit. keeps_state. Qed.

(** * Held result page *)

(** C9 (the code departs from the claim).  Only [initialize] writes the
    held page.  After the search at startup and then a facet filter, the
    document shows the filtered page and its pagination is bound to it, while
    [currentPage] still holds the page of the first search; the same after a
    pagination click and after the reset-all button. *)
Theorem held_page_is_stale_after_filter_and_paging :
  let filtered := @after _ (@filter IsoDates.platform Session.mime false) Session.initialized in
  let paged := after (pagination_click 2) Session.initialized in
  let cleared := after reset_all_click filtered in
  currentPage (this Session.initialized) = Some Session.searched
  ∧ pagination_for (doc filtered) = Some Session.filtered
  ∧ currentPage (this filtered) = Some Session.searched
  ∧ pagination_for (doc paged) = Some Session.second
  ∧ currentPage (this paged) = Some Session.searched
  ∧ reset_all_button (doc filtered) = Some (Some Session.filtered)
  ∧ currentPage (this cleared) = Some Session.searched.
Proof. vm_compute. repeat split. Qed.

(** In every world: the three handlers leave [currentPage] as it was. *)
Lemma handlers_never_write_held_page `{Platform} (w : world) (facet : Facet.t)
    (reset : bool) (pageNumber : Z) :
  currentPage (this (after (filter facet reset) w)) = currentPage (this w)
  ∧ currentPage (this (after (pagination_click pageNumber) w)) = currentPage (this w)
  ∧ currentPage (this (after reset_all_click w)) = currentPage (this w).
Proof.
  split; [|split].
  - apply (filter_keeps_page_and_theme facet reset w).
  - apply (pagination_click_keeps_page_and_theme pageNumber w).
  - apply (reset_all_click_keeps_page_and_theme w).
Qed.

(** [initialize] holds the page it received before it renders it. *)
Example initialize_holds_searched_page :
  currentPage (this Session.initialized) = Some Session.searched
  ∧ pagination_for (doc Session.initialized) = Some Session.searched.
Proof. vm_compute. split; reflexivity. Qed.

(** * Theme activation *)




(** * Theme switching and storage *)

Lemma only_renders_keeps_storage (w w' : world) : only_renders w w' → keeps_storage w w'.
Proof.
  intros Hr. split; [apply Hr|]. apply only_renders_extends_trace, Hr.
Qed.

Lemma emit_keeps_storage (e : event) : preserves keeps_storage (emit e).
Proof. intros w. split; [reflexivity|]. exists [e]. reflexivity. Qed.

Ltac storage_stays :=
  repeat first
    [ solve [auto with frame nocore]
    | solve [eapply preserves_mono;
             [exact only_renders_keeps_storage|auto with frame nocore]]
    | frame_step
    | apply emit_keeps_storage
    | apply preserves_modify; intros ?; split;
      [reflexivity|exists []; symmetry; apply app_nil_r] ].

Lemma _loadThemeCSS_keeps_storage (cssFile themeId : string) :
  preserves keeps_storage (_loadThemeCSS cssFile themeId).
Proof. unfold _loadThemeCSS. storage_stays. Qed.

Lemma applyClass_keeps_storage (themeId : string) :
  preserves keeps_storage (applyClass themeId).
Proof. unfold applyClass. storage_stays. Qed.

#[local] Hint Resolve _loadThemeCSS_keeps_storage applyClass_keeps_storage : frame.

Lemma _applyThemeClass_keeps_storage (themeId : string) :
  preserves keeps_storage (_applyThemeClass themeId).
Proof. unfold _applyThemeClass. storage_stays. Qed.

Lemma detach_keeps_storage (l : link) : preserves keeps_storage (detach l).
Proof. unfold detach. storage_stays. Qed.

#[local] Hint Resolve _applyThemeClass_keeps_storage detach_keeps_storage : frame.

Lemma _unloadTheme_keeps_storage : preserves keeps_storage _unloadTheme.
Proof. unfold _unloadTheme. storage_stays. Qed.

#[local] Hint Resolve _unloadTheme_keeps_storage : frame.

Lemma _loadTheme_keeps_storage (themeId : string) :
  preserves keeps_storage (_loadTheme themeId).
Proof. unfold _loadTheme. storage_stays. Qed.

#[local] Hint Resolve _loadTheme_keeps_storage : frame.






(** * Date range of a filter *)

Lemma try_catch_bind_normal {A B : Type} (m : act A) (f : A → act B)
    (handler : js_error → act B) (w w1 : world) (a : A) :
  m w = (Normal a, w1) →
  try_catch (bind m f) handler w = try_catch (f a) handler w1.
Proof. intros Hm. unfold try_catch, bind. rewrite Hm. reflexivity. Qed.

Section DateRange.
Context `{Platform}.

(** With date filtering enabled, the date block makes one call to the
    client: it sets the range, or deletes the parameter when no boundary is
    set. *)
Lemma date_constraint_run (w : world) :
  let dateFilter := get (config (this w)) "dateFilter" in
  nullish (config (this w)) = false →
  nullish dateFilter = false →
  truthy (get dateFilter "enabled") = true →
  reads_as_date (start_date (doc w)) "T00:00:00Z" →
  reads_as_date (end_date (doc w)) "T23:59:59Z" →
  date_constraint w
  = (Normal (), with_trace (fun t => t ++ [date_event dateFilter (doc w)]) w).
Proof.
  intros dateFilter Hconfig Hgroup Henabled Hstart Hend.
  unfold date_constraint, date_event, boundary, reads_as_date, is_set in *.
  unfold bind at 1. unfold gets at 1.
  unfold bind at 1. unfold lift at 1. rewrite read_present by exact Hconfig.
  fold dateFilter. rewrite Henabled.
  unfold bind at 1. unfold gets at 1.
  unfold bind at 1. unfold gets at 1.
  destruct (truthy (input_value (start_date (doc w)))) eqn:Hs;
    destruct (truthy (input_value (end_date (doc w)))) eqn:He; cbn [orb].
  - destruct (Hstart eq_refl) as [ts Hts]. destruct (Hend eq_refl) as [te Hte].
    unfold bind, lift, toISOString. rewrite Hts, Hte. reflexivity.
  - destruct (Hstart eq_refl) as [ts Hts].
    unfold bind, lift, toISOString, ret. rewrite Hts. reflexivity.
  - destruct (Hend eq_refl) as [te Hte].
    unfold bind, lift, toISOString, ret. rewrite Hte. reflexivity.
  - reflexivity.
Qed.


End DateRange.


(** Only the end boundary set, and none set. *)
Example filter_open_lower_range :
  let w := with_doc (set_dates (Some "") (Some "2024-01-31")) Session.initialized in
  trace (@after _ (@filter IsoDates.platform Session.mime false) w)
  = trace w ++ [SetCustomParams "fq" "meta_date:[* TO 2024-01-31T23:59:59.000Z]";
                FacetFilter "mime_type" []].
Proof. reflexivity. Qed.

Example filter_no_boundary_clears :
  trace (@after _ (@filter IsoDates.platform Session.mime false) Session.initialized)
  = trace Session.initialized ++ [DeleteCustomParams (JStr "fq"); FacetFilter "mime_type" []].
Proof. reflexivity. Qed.

(** A boundary that does not read as a date stops the call before the
    client hears of it. *)
Example filter_unreadable_boundary :
  let w := with_doc (set_dates (Some "soon") (Some "")) Session.initialized in
  trace (@after _ (@filter IsoDates.platform Session.mime false) w)
  = trace w ++ [ConsoleError "Filter error:"].
Proof. reflexivity. Qed.

(** * Deactivation and activation *)

Lemma detached_nil (ls : list link) : detached [] ls = ls.
Proof.
  unfold detached. induction ls as [|l ls IH]; [reflexivity|].
  rewrite filter_cons_True by reflexivity. f_equal. exact IH.
Qed.

Lemma detached_cons (l : link) (loaded ls : list link) :
  detached (l :: loaded) ls
  = detached loaded (base.filter (fun l' => same_node l l' = false) ls).
Proof.
  unfold detached. rewrite list_filter_filter. apply list_filter_iff.
  intros x. cbn [forallb]. rewrite andb_true_iff, negb_true_iff. tauto.
Qed.

Lemma not_attached_filter (l : link) (ls : list link) :
  existsb (same_node l) ls = false →
  base.filter (fun l' => same_node l l' = false) ls = ls.
Proof.
  induction ls as [|x ls IH]; [reflexivity|]. cbn [existsb]. intros Hnone.
  apply orb_false_elim in Hnone as [Hx Hls].
  rewrite filter_cons_True by exact Hx. f_equal. apply IH, Hls.
Qed.

(** Detaching the links an instance loaded: each one that is still in the
    document is taken out, and only link removals are added to the trace. *)
Lemma forEach_detach (loaded : list link) (w : world) :
  ∃ removals,
    forEach detach loaded w
    = (Normal (),
       with_trace (fun t => t ++ removals)
         (with_doc (fun d => set_links (detached loaded (links d)) (next_node d) d) w))
    ∧ Forall (fun e => is_hook e = false) removals.
Proof.
  revert w. induction loaded as [|l loaded IH]; intros w.
  - exists []. split; [|constructor].
    destruct w as [u d store t]; destruct d.
    cbn [forEach]. unfold skip, ret, with_trace, with_doc, set_links. simpl.
    rewrite detached_nil, app_nil_r. reflexivity.
  - cbn [forEach]. unfold detach at 1.
    destruct (existsb (same_node l) (links (doc w))) eqn:Hattached.
    + set (w1 := with_trace (fun t => t ++ [LinkRemoved (node l) (data_theme l)])
                   (with_doc (fun d => set_links
                      (base.filter (fun l' => same_node l l' = false) (links d))
                      (next_node d) d) w)).
      destruct (IH w1) as (removals & Hrun & Hquiet).
      exists (LinkRemoved (node l) (data_theme l) :: removals). split.
      * unfold bind, gets, when, modify, emit. rewrite Hattached. simpl.
        fold w1. unfold bind in Hrun. rewrite Hrun.
        unfold w1, with_trace, with_doc, set_links. simpl.
        rewrite detached_cons, <- app_assoc. reflexivity.
      * constructor; [reflexivity|exact Hquiet].
    + destruct (IH w) as (removals & Hrun & Hquiet).
      exists removals. split; [|exact Hquiet].
      unfold bind, gets, when, skip, ret. rewrite Hattached. simpl.
      unfold bind in Hrun. rewrite Hrun.
      unfold with_trace, with_doc, set_links. simpl.
      rewrite detached_cons, not_attached_filter by exact Hattached. reflexivity.
Qed.

Lemma filter_hooks_quiet (events : list event) :
  Forall (fun e => is_hook e = false) events →
  base.filter (fun e => is_hook e = true) events = [].
Proof.
  induction 1 as [|e events He _ IH]; [reflexivity|].
  rewrite filter_cons_False by (rewrite He; discriminate). exact IH.
Qed.


(** Running an operation whose first step is known *)
Lemma bind_run {A B : Type} (m : act A) (f : A → act B) (w w1 : world) (a : A)
    (r : completion B * world) :
  m w = (Normal a, w1) → f a w1 = r → bind m f w = r.
Proof. intros Hm Hf. unfold bind. rewrite Hm. exact Hf. Qed.

Ltac run := eapply bind_run; [reflexivity|cbv beta].

Lemma _unloadTheme_run (w : world) (old : Theme.t) (oldId : string) (classes : list string) :
  currentTheme (this w) = Some old →
  currentThemeId (this w) = Some oldId →
  oldId ≠ "" →
  body (doc w) = Some classes →
  ∃ removals,
    Forall (fun e => is_hook e = false) removals
    ∧ _unloadTheme w
      = (Normal (),
         with_this (set_currentTheme None None)
           (with_this (set_loadedThemeCSS [])
              (with_trace (fun t => t ++ removals)
                 (with_doc (fun d =>
                    set_links (detached (loadedThemeCSS (this w)) (links d)) (next_node d) d)
                    (with_trace (fun t => t ++ [BodyClassRemove (theme_class oldId)])
                       (with_doc
                          (set_body (Some (classList_remove (theme_class oldId) classes)))
                          (if Theme.destroy old
                           then with_trace (fun t => t ++ [HookDestroy oldId]) w
                           else w))))))).
Proof.
  intros Hcur Hid Hne Hbody. apply String.eqb_neq in Hne.
  set (w1 := if Theme.destroy old
             then with_trace (fun t => t ++ [HookDestroy oldId]) w else w).
  set (w2 := with_trace (fun t => t ++ [BodyClassRemove (theme_class oldId)])
               (with_doc (set_body (Some (classList_remove (theme_class oldId) classes)))
                  w1)).
  destruct (forEach_detach (loadedThemeCSS (this w)) w2) as (removals & Hrun & Hquiet).
  exists removals. split; [exact Hquiet|].
  unfold _unloadTheme.
  run. rewrite Hcur. run. rewrite Hid. cbn [default].
  eapply (bind_run _ _ w w1 ()).
  { unfold when, w1. destruct (Theme.destroy old); reflexivity. }
  assert (Hbody1 : body (doc w1) = Some classes).
  { unfold w1. destruct (Theme.destroy old); exact Hbody. }
  assert (Hloaded : loadedThemeCSS (this w2) = loadedThemeCSS (this w)).
  { unfold w2, w1. destruct (Theme.destroy old); reflexivity. }
  run. rewrite Hbody1.
  eapply (bind_run _ _ w1 w2 ()).
  { rewrite Hne. reflexivity. }
  run. rewrite Hloaded.
  eapply bind_run; [exact Hrun|]. reflexivity.
Qed.

Lemma _loadThemeCSS_run (cssFile themeId : string) (w : world) :
  let created := {| node := next_node (doc w); href := cssFile; data_theme := themeId |} in
  _loadThemeCSS cssFile themeId w
  = (Normal (),
     match list_find (fun l => data_theme l = themeId) (links (doc w)) with
     | Some _ => w
     | None =>
         with_this (fun u => set_loadedThemeCSS (loadedThemeCSS u ++ [created]) u)
           (with_trace (fun t => t ++ [LinkAppended (next_node (doc w)) themeId])
              (with_doc (fun d => set_links (links d ++ [created]) (S (next_node (doc w))) d)
                 w))
     end).
Proof.
  intros created. unfold _loadThemeCSS. run.
  destruct (list_find _ (links (doc w))); reflexivity.
Qed.

Lemma applyClass_run (themeId active : string) (t : Theme.t) (classes : list string)
    (w : world) :
  body (doc w) = Some classes →
  currentTheme (this w) = Some t →
  currentThemeId (this w) = Some active →
  applyClass themeId w
  = (Normal (),
     let classed :=
       with_trace (fun t => t ++ [BodyClassAdd (theme_class themeId)])
         (with_doc (set_body (Some (classList_add (theme_class themeId) classes))) w) in
     if Theme.init t then with_trace (fun t => t ++ [HookInit active]) classed else classed).
Proof.
  intros Hbody Hcur Hid. unfold applyClass. run. rewrite Hbody. run. run. run.
  cbn [this with_trace with_doc currentTheme currentThemeId]. rewrite Hcur. run.
  cbn [this with_trace with_doc currentTheme currentThemeId]. rewrite Hid. cbn [default].
  unfold when. destruct (Theme.init t); reflexivity.
Qed.

Lemma filter_hooks_cons (e : event) (events : list event) :
  base.filter (fun e => is_hook e = true) (e :: events)
  = if is_hook e then e :: base.filter (fun e => is_hook e = true) events
    else base.filter (fun e => is_hook e = true) events.
Proof.
  rewrite filter_cons. destruct (is_hook e).
  - rewrite decide_True by reflexivity. reflexivity.
  - rewrite decide_False by discriminate. reflexivity.
Qed.

Lemma _loadTheme_replaces_active_theme (w : world) (themeId oldId : string)
    (t old : Theme.t) (classes : list string) :
  themeRegistry (this w) !! themeId = Some t →
  currentTheme (this w) = Some old →
  currentThemeId (this w) = Some oldId →
  oldId ≠ "" →
  body (doc w) = Some classes →
  let w' := after (_loadTheme themeId) w in
  let remaining := detached (loadedThemeCSS (this w)) (links (doc w)) in
  let sheet := added_stylesheet t themeId remaining (next_node (doc w)) in
  links (doc w') = remaining ++ sheet
  ∧ loadedThemeCSS (this w') = sheet
  ∧ body (doc w')
    = Some (classList_add (theme_class themeId) (classList_remove (theme_class oldId) classes))
  ∧ currentTheme (this w') = Some t
  ∧ currentThemeId (this w') = Some themeId
  ∧ base.filter (fun e => is_hook e = true) (trace w')
    = base.filter (fun e => is_hook e = true) (trace w)
      ++ (if Theme.destroy old then [HookDestroy oldId] else [])
      ++ (if Theme.init t then [HookInit themeId] else []).
Proof.
  intros Hreg Hcur Hid Hne Hbody w' remaining sheet.
  destruct (_unloadTheme_run w old oldId classes Hcur Hid Hne Hbody)
    as (removals & Hquiet & Hunload).
  set (unloaded := (_unloadTheme w).2).
  assert (Hfacts : links (doc unloaded) = remaining
                   ∧ next_node (doc unloaded) = next_node (doc w)
                   ∧ loadedThemeCSS (this unloaded) = []
                   ∧ body (doc unloaded) = Some (classList_remove (theme_class oldId) classes)
                   ∧ trace unloaded
                     = trace w ++ (if Theme.destroy old then [HookDestroy oldId] else [])
                       ++ BodyClassRemove (theme_class oldId) :: removals).
  { unfold unloaded. rewrite Hunload. destruct (Theme.destroy old); cbn.
    all: repeat split; rewrite <- ?app_assoc; reflexivity. }
  destruct Hfacts as (Hlinks & Hnext & Hloaded & Hbody' & Htrace).
  (* the stylesheet *)
  set (styled := match Theme.cssFile t with
                 | Some cssFile =>
                     if String.eqb cssFile "" then unloaded
                     else (_loadThemeCSS cssFile themeId unloaded).2
                 | None => unloaded
                 end).
  assert (Hstyled : links (doc styled) = remaining ++ sheet
                    ∧ loadedThemeCSS (this styled) = sheet
                    ∧ body (doc styled) = body (doc unloaded)
                    ∧ base.filter (fun e => is_hook e = true) (trace styled)
                      = base.filter (fun e => is_hook e = true) (trace unloaded)).
  { unfold styled, sheet, added_stylesheet.
    destruct (Theme.cssFile t) as [cssFile|];
      [destruct (String.eqb cssFile "")|]; rewrite ?app_nil_r; try done.
    rewrite _loadThemeCSS_run. cbn [snd]. rewrite Hlinks, Hnext.
    destruct (list_find _ remaining); cbn; rewrite ?app_nil_r, ?Hlinks, ?Hloaded; try done.
    repeat split. rewrite filter_app.
    rewrite (filter_hooks_quiet [_]) by (repeat constructor). apply app_nil_r. }
  destruct Hstyled as (Hlinks2 & Hloaded2 & Hbody2 & Htrace2).
  set (current := with_this (set_currentTheme (Some t) (Some themeId)) styled).
  assert (Hrun : _loadTheme themeId w
    = (Normal (),
       with_trace (fun tr =>
         tr ++ [ConsoleLog ("[SmartSearchUI] Theme '" +:+ themeId +:+ "' loaded successfully")])
         (applyClass themeId current).2)).
  { unfold _loadTheme. run. rewrite Hreg. run. rewrite Hcur.
    rewrite bool_decide_eq_true_2 by eauto.
    eapply (bind_run _ _ w unloaded ()).
    { unfold when, unloaded. rewrite Hunload. reflexivity. }
    eapply (bind_run _ _ unloaded styled ()).
    { unfold styled. destruct (Theme.cssFile t) as [cssFile|]; [|reflexivity].
      unfold when. destruct (String.eqb cssFile ""); cbn [negb]; [reflexivity|].
      rewrite _loadThemeCSS_run. reflexivity. }
    run.
    eapply (bind_run _ _ current (applyClass themeId current).2 ()).
    { unfold _applyThemeClass. run.
      assert (Hb : body (doc current) = Some (classList_remove (theme_class oldId) classes))
        by (unfold current; cbn; congruence).
      rewrite Hb. rewrite bool_decide_eq_true_2 by eauto.
      erewrite applyClass_run; [reflexivity|exact Hb|reflexivity|reflexivity]. }
    reflexivity. }
  assert (Hb : body (doc current) = Some (classList_remove (theme_class oldId) classes))
    by (unfold current; cbn; congruence).
  unfold w', after. rewrite Hrun. cbn [snd].
  rewrite (applyClass_run themeId themeId t _ current Hb eq_refl eq_refl). cbn [snd].
  destruct (Theme.init t); cbn.
  all: repeat split; try assumption.
  all: rewrite ?filter_app, Htrace2, Htrace, ?filter_app.
  all: destruct (Theme.destroy old).
  all: rewrite !filter_hooks_cons, ?filter_nil; cbn [is_hook].
  all: rewrite (filter_hooks_quiet removals Hquiet).
  all: rewrite ?app_nil_r, <- ?app_assoc; reflexivity.
Qed.
Lemma classList_add_after_remove (class : string) (classes : list string) :
  classList_add class (classList_remove class classes)
  = classList_remove class classes ++ [class].
Proof.
  unfold classList_add, classList_remove.
  rewrite bool_decide_eq_false_2; [reflexivity|].
  intros Hin. apply list_elem_of_filter in Hin as [Hne _]. apply Hne. reflexivity.
Qed.

(** Once the instance's links are detached, no link of the document is
    marked with the theme's id, provided every such link was the instance's. *)
Lemma detached_leaves_no_stylesheet (themeId : string) (loaded ls : list link) :
  (∀ l, l ∈ ls → data_theme l = themeId → ∃ l', l' ∈ loaded ∧ node l' = node l) →
  base.filter (fun l => data_theme l = themeId) (detached loaded ls) = []
  ∧ list_find (fun l => data_theme l = themeId) (detached loaded ls) = None.
Proof.
  intros Hown.
  assert (Hnone : Forall (fun l => ¬ data_theme l = themeId) (detached loaded ls)).
  { apply Forall_forall. intros l Hl Hthemed.
    unfold detached in Hl. apply list_elem_of_filter in Hl as [Hkept Hl].
    destruct (Hown l Hl Hthemed) as (l' & Hl' & Hnode).
    rewrite forallb_forall in Hkept.
    specialize (Hkept l' (proj1 (list_elem_of_In _ _) Hl')).
    unfold same_node in Hkept. rewrite bool_decide_eq_true_2 in Hkept by exact Hnode.
    discriminate Hkept. }
  split.
  - induction Hnone as [|l rest Hl _ IH]; [reflexivity|].
    rewrite filter_cons_False by exact Hl. exact IH.
  - apply list_find_None. exact Hnone.
Qed.

(** C6 (as amended).  Activating the theme that is already active runs one
    full cycle of deactivation and activation.  The stylesheet reference of
    the first activation is removed and one is added, so the document holds
    one reference for the theme and no duplicate, and the body carries the
    theme's class once.  The hooks do run again: the theme's deactivation
    hook and then its activation hook are each invoked once more. *)
Theorem reactivation_runs_full_cycle (w : world) (themeId : string) (t : Theme.t)
    (classes : list string) :
  themeRegistry (this w) !! themeId = Some t →
  currentTheme (this w) = Some t →
  currentThemeId (this w) = Some themeId →
  themeId ≠ "" →
  body (doc w) = Some classes →
  (∀ l, l ∈ links (doc w) → data_theme l = themeId →
        ∃ l', l' ∈ loadedThemeCSS (this w) ∧ node l' = node l) →
  let w' := after (_loadTheme themeId) w in
  length (stylesheets_of themeId (doc w'))
  = match Theme.cssFile t with
    | Some cssFile => if String.eqb cssFile "" then 0 else 1
    | None => 0
    end
  ∧ body (doc w') = Some (classList_remove (theme_class themeId) classes ++ [theme_class themeId])
  ∧ currentThemeId (this w') = Some themeId
  ∧ base.filter (fun e => is_hook e = true) (trace w')
    = base.filter (fun e => is_hook e = true) (trace w)
      ++ (if Theme.destroy t then [HookDestroy themeId] else [])
      ++ (if Theme.init t then [HookInit themeId] else []).
Proof.
  intros Hreg Hcur Hid Hne Hbody Hown w'.
  destruct (_loadTheme_replaces_active_theme w themeId themeId t t classes
              Hreg Hcur Hid Hne Hbody) as (Hlinks & _ & Hclasses & _ & Hactive & Hhooks).
  fold w' in Hlinks, Hclasses, Hactive, Hhooks.
  destruct (detached_leaves_no_stylesheet themeId (loadedThemeCSS (this w))
              (links (doc w)) Hown) as [Hnone Hfind].
  repeat split.
  - unfold stylesheets_of. rewrite Hlinks, filter_app, Hnone.
    unfold added_stylesheet. rewrite Hfind.
    destruct (Theme.cssFile t) as [cssFile|]; [|reflexivity].
    destruct (String.eqb cssFile ""); [reflexivity|].
    rewrite filter_cons_True by reflexivity. reflexivity.
  - rewrite Hclasses, classList_add_after_remove. reflexivity.
  - exact Hactive.
  - exact Hhooks.
Qed.

Lemma reactivation_runs_full_cycle_witness :
  let w' := after (_loadTheme "default") Session.constructed in
  length (stylesheets_of "default" (doc Session.constructed)) = 1
  ∧ length (stylesheets_of "default" (doc w')) = 1
  ∧ body (doc w') = Some ["theme-default"]
  ∧ base.filter (fun e => is_hook e = true) (trace w')
    = [HookInit "default"; HookDestroy "default"; HookInit "default"].
Proof.
  intros w'.
  assert (Hown : ∀ l, l ∈ links (doc Session.constructed) → data_theme l = "default" →
            ∃ l', l' ∈ loadedThemeCSS (this Session.constructed) ∧ node l' = node l).
  { intros l Hl _. exists l. split; [exact Hl|reflexivity]. }
  destruct (reactivation_runs_full_cycle Session.constructed "default" Themes.default
              ["theme-default"] eq_refl eq_refl eq_refl ltac:(discriminate) eq_refl Hown)
    as (Hsheets & Hclasses & _ & Hhooks).
  split; [reflexivity|]. split; [exact Hsheets|]. split; [exact Hclasses|exact Hhooks].
Defined.

(** C6 (as stated) fails on the hooks: the second activation of the default
    theme invokes its activation hook a second time. *)
Lemma reactivation_invokes_init_again : ¬ reactivation_invokes_no_hook.
Proof.
  intros Hclaim.
  specialize (Hclaim Session.constructed "default" Themes.default eq_refl eq_refl eq_refl).
  vm_compute in Hclaim. discriminate Hclaim.
Qed.

(** * Switching the theme with a page held *)

(** A write that leaves the facet container alone *)
Lemma modify_facets_stay (f : world → world) :
  (∀ w, facets_container (doc (f w)) = facets_container (doc w)) →
  preserves facets_stay (modify f).
Proof.
  intros Hf w shown Hshown. exists []. cbn. rewrite Hf, app_nil_r. exact Hshown.
Qed.

Lemma append_facet_facets_stay (el : facet_el) : preserves facets_stay (append_facet el).
Proof.
  intros w shown Hshown. exists [el]. cbn. rewrite Hshown. reflexivity.
Qed.

#[local] Hint Resolve append_facet_facets_stay : frame.

Ltac facets_kept :=
  repeat first
    [ solve [auto with frame nocore]
    | frame_step
    | apply modify_facets_stay; intros ?; reflexivity ].

Lemma _loadTheme_facets_stay (themeId : string) : preserves facets_stay (_loadTheme themeId).
Proof.
  unfold _loadTheme, _unloadTheme, _loadThemeCSS, _applyThemeClass, applyClass, detach, emit.
  facets_kept.
Qed.

Lemma renderAllFacets_facets_stay (page : Page.t) :
  preserves facets_stay (renderAllFacets page).
Proof. unfold renderAllFacets, renderFacet, _renderFacetDefault. facets_kept. Qed.

Lemma renderSearchResults_facets_stay (page : Page.t) :
  preserves facets_stay (renderSearchResults page).
Proof.
  unfold renderSearchResults, _renderWithCustomTemplate, _renderDefaultCards, append_card.
  facets_kept.
Qed.

#[local] Hint Resolve _loadTheme_facets_stay renderAllFacets_facets_stay
  renderSearchResults_facets_stay : frame.

(** [switchTheme] never empties the facet container: what the previous theme
    rendered into it is still its first content after the switch. *)
Lemma switchTheme_facets_stay (themeId : string) : preserves facets_stay (switchTheme themeId).
Proof. unfold switchTheme, emit. facets_kept. Qed.

(** C5 (the code departs from the claim).  With a page held and the default
    theme active, switching to the theme [minimal] does deactivate the
    default theme before it activates [minimal], and the result cards are
    rendered anew in the new theme's markup.  The facet container is not
    emptied first: the facet block the default theme rendered is still
    there, and the new theme's block is added after it. *)
Theorem switchTheme_leaves_old_facet_markup :
  let w := after (switchTheme "minimal") Session.initialized in
  facets_container (doc Session.initialized)
  = Some [DefaultFacet Session.mime [("pdf", false); ("html", false)]]
  ∧ facets_container (doc w)
    = Some [DefaultFacet Session.mime [("pdf", false); ("html", false)];
            ThemeFacet "<div class='facet-group minimal-facet' data-facet-name='mime_type'>"
              true]
  ∧ search_results (doc w)
    = Some [ThemeCard "<a class='result-link minimal-result'>" true;
            ThemeCard "<a class='result-link minimal-result'>" true]
  ∧ base.filter (fun e => is_hook e = true) (trace w)
    = [HookInit "default"; HookDestroy "default"; HookInit "minimal"]
  ∧ body (doc w) = Some ["theme-minimal"]
  ∧ data_theme <$> links (doc w) = ["minimal"].
Proof. vm_compute. repeat split. Qed.

(** The paths that do empty the container first: after a filter the
    container holds the blocks of the new page only. *)
Example filter_replaces_facet_markup :
  facets_container (doc (@after _ (@filter IsoDates.platform Session.mime false)
                           Session.initialized))
  = Some [DefaultFacet Session.mime_pdf [("pdf", true)]].
Proof. vm_compute. reflexivity. Qed.

(** After a filter, switching the theme renders the page of the first
    search again, not the filtered page. *)
Example switchTheme_renders_stale_page :
  let filtered := @after _ (@filter IsoDates.platform Session.mime false) Session.initialized in
  pagination_for (doc filtered) = Some Session.filtered
  ∧ pagination_for (doc (after (switchTheme "minimal") filtered)) = Some Session.searched.
Proof. vm_compute. split; reflexivity. Qed.

(** * Further properties *)

(** * What rendering leaves in the document *)

Lemma forEach_run_nil {A : Type} (f : A → act ()) (w : world) :
  forEach f [] w = (Normal (), w).
Proof. reflexivity. Qed.

Lemma forEach_run_cons {A : Type} (f : A → act ()) (x : A) (xs : list A) (w w1 : world)
    (r : completion () * world) :
  f x w = (Normal (), w1) → forEach f xs w1 = r → forEach f (x :: xs) w = r.
Proof. intros Hx Hxs. cbn [forEach]. eapply bind_run; eassumption. Qed.

(** Appending one card after the other is appending the list. *)
Lemma forEach_append_card {A : Type} (f : A → act ()) (card : A → card_el) (xs : list A) :
  (∀ x w, f x w = (Normal (), after (append_card (card x)) w)) →
  ∀ w, forEach f xs w
       = (Normal (),
          with_doc (fun d =>
            set_search_results ((fun c => c ++ (card <$> xs)) <$> search_results d) d) w).
Proof.
  intros Hf. induction xs as [|x xs IH]; intros w.
  - rewrite forEach_run_nil. destruct w as [u d s t]; destruct d as [? ? ? ? ? ? results ? ? ? ? ?].
    unfold with_doc, set_search_results. cbn. destruct results; cbn; rewrite ?app_nil_r;
      reflexivity.
  - eapply forEach_run_cons; [apply Hf|]. rewrite IH.
    destruct w as [u d s t]; destruct d as [? ? ? ? ? ? results ? ? ? ? ?].
    unfold after, append_card, modify, with_doc, set_search_results. cbn.
    destruct results; cbn; rewrite <- ?app_assoc; reflexivity.
Qed.

Lemma _renderWithCustomTemplate_run (template : jsval → jsval → string) (page : Page.t)
    (w : world) :
  _renderWithCustomTemplate template page w
  = (Normal (),
     with_doc (fun d =>
       set_search_results
         ((fun c => c ++ ((fun entry => TemplateCard (template entry.1 entry.2))
                            <$> Page.searchResults page)) <$> search_results d) d) w).
Proof.
  unfold _renderWithCustomTemplate. apply forEach_append_card. reflexivity.
Qed.

Lemma forEach_default_cards (theme : option Theme.t) (entries : list (jsval * jsval))
    (start : nat) (w : world) :
  currentTheme (this w) = theme →
  forEach (fun entry : nat * (jsval * jsval) =>
             let '(index, (result, highlights)) := entry in
             theme ← gets (fun w => currentTheme (this w));
             match (theme ≫= Theme.renderResultCard)%stdpp with
             | Some render =>
                 append_card (ThemeCard (render result highlights)
                                (default false (Theme.attachCardListeners <$> theme)))
             | None => append_card (DefaultCard index result)
             end)
    (imap (fun i r => (start + i, r)) entries) w
  = (Normal (),
     with_doc (fun d =>
       set_search_results
         ((fun c => c ++ imap (fun i r => card_of theme (start + i) r) entries)
            <$> search_results d) d) w).
Proof.
  revert start w. induction entries as [|[result highlights] entries IH]; intros start w Htheme.
  - cbn [imap]. rewrite forEach_run_nil.
    destruct w as [u d s t]; destruct d as [? ? ? ? ? ? results ? ? ? ? ?].
    unfold with_doc, set_search_results. cbn. destruct results; cbn; rewrite ?app_nil_r;
      reflexivity.
  - cbn [imap].
    set (w1 := after (append_card (card_of theme (start + 0) (result, highlights))) w).
    eapply (forEach_run_cons _ _ _ w w1).
    + cbv beta iota. unfold bind, gets. rewrite Htheme. unfold w1, after, card_of. cbn [fst snd].
      destruct (theme ≫= Theme.renderResultCard)%stdpp; reflexivity.
    + assert (Hshift : imap ((fun i r => (start + i, r)) ∘ S) entries
                       = imap (fun i r => (S start + i, r)) entries).
      { apply imap_ext. intros i x _. cbn. f_equal. lia. }
      rewrite Hshift, (IH (S start) w1) by exact Htheme.
      assert (Hshift' : imap ((fun i r => card_of theme (start + i) r) ∘ S) entries
                        = imap (fun i r => card_of theme (S start + i) r) entries).
      { apply imap_ext. intros i x _. cbn. f_equal. lia. }
      rewrite Hshift'.
      destruct w as [u d s t]; destruct d as [? ? ? ? ? ? results ? ? ? ? ?].
      unfold w1, after, append_card, modify, with_doc, set_search_results. cbn.
      destruct results; cbn; rewrite <- ?app_assoc; reflexivity.
Qed.

Lemma _renderDefaultCards_run (page : Page.t) (w : world) :
  _renderDefaultCards page w
  = (Normal (),
     with_doc (fun d =>
       set_search_results
         ((fun c => c ++ imap (card_of (currentTheme (this w))) (Page.searchResults page))
            <$> search_results d) d) w).
Proof.
  unfold _renderDefaultCards.
  exact (forEach_default_cards (currentTheme (this w)) (Page.searchResults page) 0 w eq_refl).
Qed.

Lemma renderSearchResults_run (page : Page.t) (w : world) (old : list card_el) :
  search_results (doc w) = Some old →
  let shown := page_to_render (this w) page in
  renderSearchResults page w
  = (Normal (),
     if negb (bool_decide (0 < length (Page.searchResults shown))%nat)
        || (Page.totalResults shown =? 0)%Z
     then with_doc (fun d => set_search_results (Some [NoResults]) (set_pagination_for None d)) w
     else with_doc (fun d =>
            set_pagination_for (Some shown)
              (set_search_results (Some (cards_of (this w) shown)) d)) w).
Proof.
  intros Hold shown. unfold renderSearchResults.
  run. rewrite Hold. run. fold (page_to_render (this w) page). fold shown.
  run. run.
  destruct (negb (bool_decide (0 < length (Page.searchResults shown))%nat)
            || (Page.totalResults shown =? 0)%Z).
  - destruct w as [u d s t]; destruct d. reflexivity.
  - run. cbn [this with_doc]. unfold cards_of.
    destruct (resultTemplate (hooks (this w))) as [template|].
    + eapply bind_run; [apply _renderWithCustomTemplate_run|].
      destruct w as [u d s t]; destruct d. reflexivity.
    + eapply bind_run; [apply _renderDefaultCards_run|].
      destruct w as [u d s t]; destruct d. reflexivity.
Qed.




(** X2.  A page whose count is zero is rendered as "no results" even when it
    carries results, and so is a page without results whatever its count;
    the pagination buttons are then bound to no page. *)
Theorem renderSearchResults_zero_count_hides_results (page : Page.t) (w : world)
    (old : list card_el) :
  search_results (doc w) = Some old →
  let shown := page_to_render (this w) page in
  Page.totalResults shown = 0%Z ∨ Page.searchResults shown = [] →
  let w' := after (renderSearchResults page) w in
  search_results (doc w') = Some [NoResults] ∧ pagination_for (doc w') = None.
Proof.
  intros Hold shown Hempty w'. unfold w', after.
  rewrite (renderSearchResults_run page w old Hold). fold shown.
  assert (Hcond : negb (bool_decide (0 < length (Page.searchResults shown))%nat)
                  || (Page.totalResults shown =? 0)%Z = true).
  { destruct Hempty as [-> | ->]; [apply orb_true_r|reflexivity]. }
  rewrite Hcond. split; reflexivity.
Qed.

Lemma renderSearchResults_zero_count_hides_results_witness :
  let uncounted := {| Page.facets := None;
                      Page.searchResults := [(Session.doc1, JUndefined)];
                      Page.totalResults := 0; Page.pageNumber := 1 |} in
  search_results (doc (after (renderSearchResults uncounted) Session.initialized))
  = Some [NoResults].
Proof.
  intros uncounted.
  pose proof (renderSearchResults_zero_count_hides_results uncounted Session.initialized
                [DefaultCard 0 Session.doc1; DefaultCard 1 Session.doc2]) as Hshown.
  cbv zeta in Hshown.
  specialize (Hshown ltac:(vm_compute; reflexivity) ltac:(left; vm_compute; reflexivity)).
  exact (proj1 Hshown).
Defined.


Lemma renderFacet_run (facet : Facet.t) (w : world) :
  renderFacet facet w
  = (Normal (),
     if facetContainer (this w)
     then after (append_facet (facet_block (currentTheme (this w)) facet)) w
     else w).
Proof.
  unfold renderFacet. run. destruct (facetContainer (this w)) eqn:Hcontainer; [|reflexivity].
  cbn [negb]. run. unfold facet_block.
  destruct (currentTheme (this w)) as [t|]; cbn [mbind option_bind].
  - destruct (Theme.renderFacet t); [reflexivity|].
    unfold _renderFacetDefault. run. rewrite Hcontainer. reflexivity.
  - unfold _renderFacetDefault. run. rewrite Hcontainer. reflexivity.
Qed.

Lemma forEach_renderFacets (cfg : jsval) (facets : list Facet.t) (w : world) :
  config (this w) = cfg →
  facets_readable cfg = true →
  forEach (fun facet =>
             groups ← lift (read cfg "facets");
             displayNames ← lift (read groups "displayNames");
             displayName ← lift (read displayNames (Facet.name facet));
             if truthy displayName
             then renderFacet (Facet.setDisplayName (to_str displayName) facet)
             else renderFacet facet) facets w
  = (Normal (),
     if facetContainer (this w)
     then with_doc (fun d =>
            set_facets_container
              ((fun c => c ++ (facet_block (currentTheme (this w)) ∘ shown_facet cfg <$> facets))
                 <$> facets_container d) d) w
     else w).
Proof.
  intros Hcfg Hreadable. unfold facets_readable, path in Hreadable. cbn [foldl] in Hreadable.
  repeat (apply andb_prop in Hreadable as [Hreadable ?]).
  repeat match goal with H : negb _ = true |- _ => apply negb_true_iff in H end.
  revert w Hcfg. induction facets as [|facet facets IH]; intros w Hcfg.
  - rewrite forEach_run_nil. destruct (facetContainer (this w)); [|reflexivity].
    destruct w as [u d s t]; destruct d as [? ? ? ? ? container ? ? ? ? ? ?].
    unfold with_doc, set_facets_container. cbn.
    destruct container; cbn; rewrite ?app_nil_r; reflexivity.
  - set (w1 := if facetContainer (this w)
               then after (append_facet (facet_block (currentTheme (this w))
                                           (shown_facet cfg facet))) w
               else w).
    eapply (forEach_run_cons _ _ _ w w1).
    + cbv beta. unfold lift at 1. unfold bind at 1. rewrite read_present by assumption.
      unfold lift at 1. unfold bind at 1. rewrite read_present by assumption.
      unfold lift at 1. unfold bind at 1. rewrite read_present by assumption.
      unfold w1, shown_facet, path. cbn [foldl].
      destruct (truthy _); apply renderFacet_run.
    + assert (Hthis : this w1 = this w).
      { unfold w1. destruct (facetContainer (this w)); reflexivity. }
      rewrite IH by (rewrite Hthis; exact Hcfg). rewrite Hthis.
      unfold w1. destruct (facetContainer (this w)); [|reflexivity].
      destruct w as [u d s t]; destruct d as [? ? ? ? ? container ? ? ? ? ? ?].
      unfold after, append_facet, modify, with_doc, set_facets_container. cbn.
      destruct container; cbn; rewrite <- ?app_assoc; reflexivity.
Qed.

Lemma renderAllFacets_run (page : Page.t) (w : world) (facets : list Facet.t) :
  Page.facets page = Some facets →
  facets_readable (config (this w)) = true →
  renderAllFacets page w
  = (Normal (),
     if facetContainer (this w)
     then with_doc (fun d =>
            set_facets_container
              ((fun c => c ++ (facet_block (currentTheme (this w))
                                 ∘ shown_facet (config (this w)) <$> facets))
                 <$> facets_container d) d) w
     else w).
Proof.
  intros Hfacets Hreadable. unfold renderAllFacets. rewrite Hfacets.
  destruct facets as [|facet facets].
  - destruct (facetContainer (this w)); [|reflexivity].
    destruct w as [u d s t]; destruct d as [? ? ? ? ? container ? ? ? ? ? ?].
    unfold skip, ret, with_doc, set_facets_container. cbn.
    destruct container; cbn; rewrite ?app_nil_r; reflexivity.
  - run.
    assert (Hdate : nullish (get (config (this w)) "dateFilter") = false
                    ∧ nullish (config (this w)) = false).
    { unfold facets_readable, path in Hreadable. cbn [foldl] in Hreadable.
      repeat (apply andb_prop in Hreadable as [Hreadable ?]).
      repeat match goal with H : negb _ = true |- _ => apply negb_true_iff in H end.
      split; assumption. }
    destruct Hdate as [Hdate Hcfg].
    unfold lift at 1. unfold bind at 1. rewrite read_present by exact Hcfg.
    apply forEach_renderFacets; [reflexivity|exact Hreadable].
Qed.

(** X4.  [renderAllFacets] adds one block per facet of the page, in order,
    after whatever the facet container holds; it removes nothing, and with
    no container referenced it writes nothing. *)
Theorem renderAllFacets_appends_blocks (page : Page.t) (w : world) (facets : list Facet.t)
    (shown : list facet_el) :
  Page.facets page = Some facets →
  facets_readable (config (this w)) = true →
  facets_container (doc w) = Some shown →
  let w' := after (renderAllFacets page) w in
  (facetContainer (this w) = true →
   facets_container (doc w')
   = Some (shown ++ (facet_block (currentTheme (this w))
                       ∘ shown_facet (config (this w)) <$> facets)))
  ∧ (facetContainer (this w) = false → w' = w).
Proof.
  intros Hfacets Hreadable Hshown w'. unfold w', after.
  rewrite (renderAllFacets_run page w facets Hfacets Hreadable).
  split; intros ->; cbn; [|reflexivity]. rewrite Hshown. reflexivity.
Qed.

Lemma renderAllFacets_appends_blocks_witness :
  facets_container (doc (after (renderAllFacets Session.searched) Session.initialized))
  = Some [DefaultFacet Session.mime [("pdf", false); ("html", false)];
          DefaultFacet Session.mime [("pdf", false); ("html", false)]].
Proof.
  exact (proj1 (renderAllFacets_appends_blocks Session.searched Session.initialized
                  [Session.mime] [DefaultFacet Session.mime [("pdf", false); ("html", false)]]
                  eq_refl eq_refl eq_refl) eq_refl).
Defined.

Lemma boxes_checked (facet : Facet.t) :
  (base.filter (fun b : string * bool => b.2 = true) (boxes_of facet)).*1
  = selected_offered facet.
Proof.
  unfold boxes_of, selected_offered.
  generalize (Facet.selectedValues facet) as selected.
  generalize (Facet.counts facet) as counts. intros counts selected.
  induction counts as [|[value n] counts IH]; [reflexivity|].
  cbn [fmap list_fmap fst snd]. rewrite !filter_cons. cbn [fst snd].
  destruct (decide (value ∈ selected)) as [Hin|Hout].
  - rewrite (bool_decide_eq_true_2 _ Hin).
    rewrite (decide_True (P := true = true)) by reflexivity.
    cbn [fmap list_fmap fst]. f_equal. exact IH.
  - rewrite (bool_decide_eq_false_2 _ Hout).
    rewrite (decide_False (P := false = true)) by discriminate. exact IH.
Qed.

Lemma checked_values_default_blocks (cfg : jsval) (facets : list Facet.t) :
  checked_values_of (facet_block None ∘ shown_facet cfg <$> facets)
  = facets ≫= selected_offered.
Proof.
  unfold checked_values_of. induction facets as [|facet facets IH]; [reflexivity|].
  cbn [fmap list_fmap mbind list_bind]. rewrite <- IH. f_equal.
  unfold facet_block. cbn [mbind option_bind compose]. rewrite boxes_checked.
  unfold shown_facet. destruct (truthy _); reflexivity.
Qed.

Lemma initFacetContainer_run (page : Page.t) (w : world) :
  initFacetContainer page w
  = (Normal (),
     match facets_container (doc w) with
     | Some _ =>
         with_doc (fun d =>
           set_reset_all_button ((fun _ => Some page) <$> reset_all_button d)
             (set_facets_container (Some []) d))
           (with_this (set_facetContainer true) w)
     | None =>
         with_trace (fun t => t ++ [ConsoleWarn "Facets container element not found"])
           (with_this (set_facetContainer false) w)
     end).
Proof.
  unfold initFacetContainer. run. run.
  destruct (facets_container (doc w)) as [children|].
  - rewrite bool_decide_eq_true_2 by eauto. cbn [negb]. run.
    destruct w as [u d s t]; destruct d. reflexivity.
  - rewrite bool_decide_eq_false_2 by (intros [x Hx]; discriminate Hx). reflexivity.
Qed.

(** X5.  When the facet container is emptied and filled by the built-in
    renderer, the boxes that are checked afterwards are the values the page
    reports as selected, facet by facet and in the order offered: the next
    [filter] reads back the selection the client answered with. *)
Theorem rendered_boxes_read_back_selection (page : Page.t) (w : world)
    (facets : list Facet.t) (children : list facet_el) :
  Page.facets page = Some facets →
  facets_readable (config (this w)) = true →
  facets_container (doc w) = Some children →
  (currentTheme (this w) ≫= Theme.renderFacet)%stdpp = None →
  checked_values (doc (after (initFacetContainer page;; renderAllFacets page) w))
  = facets ≫= selected_offered.
Proof.
  intros Hfacets Hreadable Hchildren Hbuiltin. unfold after.
  erewrite bind_run; [|apply initFacetContainer_run|reflexivity].
  rewrite Hchildren.
  rewrite (renderAllFacets_run page _ facets Hfacets) by exact Hreadable.
  cbn. unfold checked_values. cbn.
  rewrite <- (checked_values_default_blocks (config (this w)) facets).
  unfold checked_values_of. f_equal. apply list_fmap_ext. intros i facet _.
  unfold facet_block, compose. cbn in Hbuiltin. rewrite Hbuiltin. reflexivity.
Qed.

Lemma rendered_boxes_read_back_selection_witness :
  checked_values
    (doc (after (initFacetContainer Session.filtered;; renderAllFacets Session.filtered)
            Session.initialized))
  = ["pdf"].
Proof.
  pose proof (rendered_boxes_read_back_selection Session.filtered Session.initialized
                [Session.mime_pdf] [DefaultFacet Session.mime [("pdf", false); ("html", false)]])
    as Hboxes.
  specialize (Hboxes ltac:(vm_compute; reflexivity) ltac:(vm_compute; reflexivity)
                     ltac:(vm_compute; reflexivity) ltac:(vm_compute; reflexivity)).
  exact Hboxes.
Defined.

(** X6.  A page without the element [facets-container].  [initFacetContainer]
    warns and leaves the instance without a container; [renderAllFacets]
    then writes nothing, whatever the page's facets, and nothing is thrown. *)
Theorem no_facet_container_renders_no_facet (page : Page.t) (w : world)
    (facets : list Facet.t) :
  Page.facets page = Some facets →
  facets_readable (config (this w)) = true →
  facets_container (doc w) = None →
  (initFacetContainer page;; renderAllFacets page) w
  = (Normal (),
     with_trace (fun t => t ++ [ConsoleWarn "Facets container element not found"])
       (with_this (set_facetContainer false) w)).
Proof.
  intros Hfacets Hreadable Hnone.
  erewrite bind_run; [reflexivity|apply initFacetContainer_run|].
  rewrite Hnone.
  rewrite (renderAllFacets_run page _ facets Hfacets) by exact Hreadable.
  reflexivity.
Qed.

Lemma no_facet_container_renders_no_facet_witness :
  let bare := with_doc (set_facets_container None) Session.constructed in
  facets_container
    (doc (after (initFacetContainer Session.searched;; renderAllFacets Session.searched) bare))
  = None.
Proof.
  intros bare.
  pose proof (no_facet_container_renders_no_facet Session.searched bare [Session.mime])
    as Hrun.
  specialize (Hrun ltac:(vm_compute; reflexivity) ltac:(vm_compute; reflexivity)
                   ltac:(vm_compute; reflexivity)).
  unfold after. rewrite Hrun. reflexivity.
Defined.

(** * Failure of the client, and start-up *)

(** Two spellings of the same world *)
Ltac same_world :=
  unfold after, skip, emit, showErrorState, showEmptyState;
  unfold ret, modify, with_doc, with_this, with_trace, with_localStorage;
  cbn; rewrite <- ?app_assoc; reflexivity.

Lemma try_catch_returns {A : Type} (m : act A) (handler : js_error → act A) (w : world) :
  (∀ e w', ∃ a, (handler e w').1 = Normal a) →
  ∃ a, (try_catch m handler w).1 = Normal a.
Proof.
  intros Hhandler. unfold try_catch. destruct (m w) as [[a|e] w']; [eauto|apply Hhandler].
Qed.



Section FilterFailure.
Context `{Platform}.

(** X8.  [filter] does not throw, whatever the state: every failure inside
    it ends in the console. *)
Theorem filter_never_throws (w : world) (facet : Facet.t) (reset : bool) :
  (filter facet reset w).1 = Normal ().
Proof.
  unfold filter. unfold bind at 1. unfold gets at 1.
  destruct (try_catch_returns
    (let values := if reset then [] else checked_values (doc w) in
     date_constraint;;
     answer ← gets (fun w => filter_answer (fsss (this w)) (trace w) facet values);
     emit (FacetFilter (Facet.name facet) values);;
     page ← await answer;
     initFacetContainer page;; renderAllFacets page;; renderSearchResults page)
    (fun _ => emit (ConsoleError "Filter error:")) w) as [[] Hreturns].
  { intros e w'. exists (). reflexivity. }
  exact Hreturns.
Qed.

(** X9.  When the client rejects the facet's filter call, [filter] has told
    the client the date constraint and logged the error; the document and
    the instance are exactly as before, so the page shown stays shown. *)
Theorem filter_rejected_leaves_document (w : world) (facet : Facet.t) (reset : bool) :
  let dateFilter := get (config (this w)) "dateFilter" in
  let values := if reset then [] else checked_values (doc w) in
  nullish (config (this w)) = false →
  nullish dateFilter = false →
  truthy (get dateFilter "enabled") = true →
  reads_as_date (start_date (doc w)) "T00:00:00Z" →
  reads_as_date (end_date (doc w)) "T23:59:59Z" →
  filter_answer (fsss (this w))
    (trace w ++ [date_event dateFilter (doc w)]) facet values = None →
  filter facet reset w
  = (Normal (),
     with_trace (fun t =>
       t ++ [date_event dateFilter (doc w); FacetFilter (Facet.name facet) values;
             ConsoleError "Filter error:"]) w).
Proof.
  intros dateFilter values Hconfig Hgroup Henabled Hstart Hend Hrejected.
  unfold filter. unfold bind at 1. unfold gets at 1.
  rewrite (try_catch_bind_normal _ _ _ _ _ _
             (date_constraint_run w Hconfig Hgroup Henabled Hstart Hend)).
  fold dateFilter. fold values.
  set (told := with_trace (fun t => t ++ [date_event dateFilter (doc w)]) w).
  rewrite (try_catch_bind_normal
             (gets (fun w => filter_answer (fsss (this w)) (trace w) facet values))
             _ _ told told _ eq_refl).
  rewrite (try_catch_bind_normal (emit (FacetFilter (Facet.name facet) values))
             _ _ told _ _ eq_refl).
  unfold told. cbn [this trace with_trace]. rewrite Hrejected.
  destruct w as [u d s t]. same_world.
Qed.

End FilterFailure.

Lemma filter_rejected_leaves_document_witness :
  let w := with_client offline Session.initialized in
  doc (@after _ (@filter IsoDates.platform Session.mime false) w) = doc w.
Proof.
  intros w.
  assert (Hstart : @reads_as_date IsoDates.platform (start_date (doc w)) "T00:00:00Z")
    by (intros Hset; vm_compute in Hset; discriminate Hset).
  assert (Hend : @reads_as_date IsoDates.platform (end_date (doc w)) "T23:59:59Z")
    by (intros Hset; vm_compute in Hset; discriminate Hset).
  unfold after.
  rewrite (@filter_rejected_leaves_document IsoDates.platform w Session.mime false
             eq_refl eq_refl eq_refl Hstart Hend eq_refl).
  reflexivity.
Defined.

(** X10.  The pagination click handler has no [catch]: a rejected page
    fetch is thrown out of the handler, after the call went out, and the
    document keeps showing the page it showed. *)
Theorem pagination_click_rejected_throws (w : world) (bound : Page.t) (pageNumber : Z) :
  pagination_for (doc w) = Some bound →
  getPage_answer (fsss (this w)) (trace w) bound pageNumber = None →
  pagination_click pageNumber w
  = (Throw (Error "rejected"), with_trace (fun t => t ++ [GetPage pageNumber]) w).
Proof.
  intros Hbound Hrejected. unfold pagination_click. run. rewrite Hbound.
  run. rewrite Hrejected. run. reflexivity.
Qed.

Lemma pagination_click_rejected_throws_witness :
  let w := with_client offline Session.initialized in
  (pagination_click 2 w).1 = Throw (Error "rejected")
  ∧ doc (after (pagination_click 2) w) = doc w.
Proof.
  intros w. unfold after.
  rewrite (pagination_click_rejected_throws w Session.searched 2 eq_refl eq_refl).
  split; reflexivity.
Defined.

(** X11.  The reset-all handler empties the two date inputs and deletes the
    client's date parameter before it asks the client to reset the facets.
    When that call is rejected the rejection is thrown, the inputs stay
    emptied and the parameter stays deleted, while the facets and results
    shown are still those of the page before. *)
Theorem reset_all_rejected_keeps_dates_cleared (w : world) (bound : Page.t) :
  let dateFilter := get (config (this w)) "dateFilter" in
  let cleared := with_doc (fun d =>
                   set_dates ((fun _ => "") <$> start_date d) ((fun _ => "") <$> end_date d) d)
                   w in
  reset_all_button (doc w) = Some (Some bound) →
  nullish (config (this w)) = false →
  truthy (get dateFilter "enabled") = true →
  resetFacets_answer (fsss (this w))
    (trace w ++ [DeleteCustomParams (get dateFilter "solrFilterParam")]) bound = None →
  reset_all_click w
  = (Throw (Error "rejected"),
     with_trace (fun t =>
       t ++ [DeleteCustomParams (get dateFilter "solrFilterParam"); ResetFacets]) cleared).
Proof.
  intros dateFilter cleared Hbound Hconfig Henabled Hrejected.
  unfold reset_all_click. run. rewrite Hbound. run.
  unfold lift at 1. unfold bind at 1. rewrite read_present by exact Hconfig.
  fold dateFilter. rewrite Henabled. unfold when.
  run. run. cbn [this trace with_trace with_doc]. rewrite Hrejected.
  run. unfold cleared. destruct w as [u d s t]. same_world.
Qed.

Lemma reset_all_rejected_keeps_dates_cleared_witness :
  let w := with_doc (set_dates (Some "2024-01-01") (Some "2024-01-31"))
             (with_client offline Session.initialized) in
  let w' := after reset_all_click w in
  start_date (doc w') = Some "" ∧ end_date (doc w') = Some ""
  ∧ facets_container (doc w') = facets_container (doc w).
Proof.
  intros w w'.
  pose proof (reset_all_rejected_keeps_dates_cleared w Session.searched) as Hrun.
  cbv zeta in Hrun.
  specialize (Hrun ltac:(vm_compute; reflexivity) ltac:(vm_compute; reflexivity)
                   ltac:(vm_compute; reflexivity) ltac:(vm_compute; reflexivity)).
  unfold w', after. rewrite Hrun. vm_compute. repeat split.
Defined.



(** * Storage *)

Lemma initFacetContainer_keeps_storage (page : Page.t) :
  preserves keeps_storage (initFacetContainer page).
Proof. unfold initFacetContainer. storage_stays. Qed.

Lemma showEmptyState_keeps_storage : preserves keeps_storage showEmptyState.
Proof. unfold showEmptyState. storage_stays. Qed.

Lemma showErrorState_keeps_storage : preserves keeps_storage showErrorState.
Proof. unfold showErrorState. storage_stays. Qed.

#[local] Hint Resolve initFacetContainer_keeps_storage showEmptyState_keeps_storage
  showErrorState_keeps_storage : frame.

Lemma search_keeps_storage (query : string) : preserves keeps_storage (search query).
Proof. unfold search. storage_stays. Qed.

#[local] Hint Resolve search_keeps_storage : frame.

Lemma initialize_keeps_storage : preserves keeps_storage initialize.
Proof. unfold initialize. storage_stays. Qed.

Lemma constructor_keeps_storage (smartSearchInstance : client) (userConfig : jsval)
    (functions : callbacks) (registry : gmap string Theme.t) :
  preserves keeps_storage (constructor smartSearchInstance userConfig functions registry).
Proof. unfold constructor. storage_stays. Qed.

Lemma DOMContentLoaded_keeps_storage : preserves keeps_storage DOMContentLoaded.
Proof. unfold DOMContentLoaded. storage_stays. Qed.

(** X13.  Searching, rendering and theme activation never write to
    storage: construction, [initialize], [filter], a pagination click, the
    reset-all button, [_loadTheme] and the deferred activation at
    [DOMContentLoaded] leave [localStorage] as it is, in every world and
    whether they return or throw.  ([switchTheme] and the settings form are
    the writers.) *)
Theorem search_and_activation_keep_storage `{Platform} (w : world) :
  (∀ smartSearchInstance userConfig functions registry,
     localStorage (after (constructor smartSearchInstance userConfig functions registry) w)
     = localStorage w)
  ∧ localStorage (after initialize w) = localStorage w
  ∧ (∀ facet reset, localStorage (after (filter facet reset) w) = localStorage w)
  ∧ (∀ pageNumber, localStorage (after (pagination_click pageNumber) w) = localStorage w)
  ∧ localStorage (after reset_all_click w) = localStorage w
  ∧ (∀ themeId, localStorage (after (_loadTheme themeId) w) = localStorage w)
  ∧ localStorage (after DOMContentLoaded w) = localStorage w.
Proof.
  repeat split; intros.
  - apply constructor_keeps_storage.
  - apply initialize_keeps_storage.
  - apply filter_keeps_page_and_theme.
  - apply pagination_click_keeps_page_and_theme.
  - apply reset_all_click_keeps_page_and_theme.
  - apply _loadTheme_keeps_storage.
  - apply DOMContentLoaded_keeps_storage.
Qed.



(** * First activation, deactivation, deferred activation *)

Lemma stylesheet_step_run (t : Theme.t) (themeId : string) (w : world) :
  match Theme.cssFile t with
  | Some cssFile => when (negb (String.eqb cssFile "")) (_loadThemeCSS cssFile themeId)
  | None => skip
  end w
  = (Normal (),
     with_stylesheet (added_stylesheet t themeId (links (doc w)) (next_node (doc w)))
       themeId w).
Proof.
  assert (Hnone : (Normal (), w) = (Normal (), with_stylesheet [] themeId w)
                  :> completion () * world).
  { destruct w as [u d s tr]; destruct d; destruct u.
    unfold with_stylesheet, with_this, with_trace, with_doc, set_loadedThemeCSS, set_links.
    cbn. rewrite !app_nil_r. reflexivity. }
  unfold added_stylesheet.
  destruct (Theme.cssFile t) as [cssFile|]; [|exact Hnone].
  unfold when. destruct (String.eqb cssFile ""); cbn [negb]; [exact Hnone|].
  rewrite _loadThemeCSS_run.
  destruct (list_find _ (links (doc w))); [exact Hnone|reflexivity].
Qed.

Lemma _loadTheme_first_run (w : world) (themeId : string) (t : Theme.t)
    (classes : list string) :
  themeRegistry (this w) !! themeId = Some t →
  currentTheme (this w) = None →
  body (doc w) = Some classes →
  _loadTheme themeId w
  = (Normal (),
     with_trace (fun tr => tr ++ [loaded_message themeId])
       (with_class themeId classes (if Theme.init t then Some themeId else None)
          (with_theme t themeId w))).
Proof.
  intros Hreg Hcur Hbody. unfold _loadTheme. run. rewrite Hreg. run. rewrite Hcur.
  rewrite bool_decide_eq_false_2 by (intros [x Hx]; discriminate Hx).
  eapply (bind_run _ _ w w ()); [reflexivity|].
  eapply bind_run; [apply stylesheet_step_run|].
  run. fold (with_theme t themeId w).
  assert (Hb : body (doc (with_theme t themeId w)) = Some classes) by exact Hbody.
  eapply (bind_run _ _ _ (with_class themeId classes
            (if Theme.init t then Some themeId else None) (with_theme t themeId w)) ()).
  { unfold _applyThemeClass. run. rewrite Hb. rewrite bool_decide_eq_true_2 by eauto.
    erewrite applyClass_run; [|exact Hb|reflexivity|reflexivity].
    unfold with_class. destruct (Theme.init t); reflexivity. }
  reflexivity.
Qed.

Lemma _loadTheme_deferred_run (w : world) (themeId : string) (t : Theme.t) :
  themeRegistry (this w) !! themeId = Some t →
  currentTheme (this w) = None →
  body (doc w) = None →
  loading (doc w) = true →
  _loadTheme themeId w
  = (Normal (),
     with_trace (fun tr => tr ++ [loaded_message themeId])
       (with_doc (fun d => set_ready (onDOMContentLoaded d ++ [themeId]) true d)
          (with_theme t themeId w))).
Proof.
  intros Hreg Hcur Hbody Hloading. unfold _loadTheme. run. rewrite Hreg. run. rewrite Hcur.
  rewrite bool_decide_eq_false_2 by (intros [x Hx]; discriminate Hx).
  eapply (bind_run _ _ w w ()); [reflexivity|].
  eapply bind_run; [apply stylesheet_step_run|].
  run. fold (with_theme t themeId w).
  assert (Hb : body (doc (with_theme t themeId w)) = None) by exact Hbody.
  assert (Hl : loading (doc (with_theme t themeId w)) = true) by exact Hloading.
  eapply bind_run; [|reflexivity].
  unfold _applyThemeClass. run. rewrite Hb.
  rewrite bool_decide_eq_false_2 by (intros [x Hx]; discriminate Hx).
  run. rewrite Hl. reflexivity.
Qed.

Lemma hook_calls_app (a b : list event) : hook_calls (a ++ b) = hook_calls a ++ hook_calls b.
Proof. apply filter_app. Qed.

Lemma hook_calls_links (sheet : list link) (themeId : string) :
  hook_calls ((fun l => LinkAppended (node l) themeId) <$> sheet) = [].
Proof.
  apply filter_hooks_quiet. apply Forall_fmap, Forall_forall. intros l _. reflexivity.
Qed.

Lemma hook_calls_init (t : Theme.t) (themeId : string) :
  hook_calls (init_call t themeId) = init_call t themeId.
Proof. unfold init_call. destruct (Theme.init t); reflexivity. Qed.

(** What the first activation leaves *)
Lemma _loadTheme_first_facts (w : world) (themeId : string) (t : Theme.t)
    (classes : list string) :
  themeRegistry (this w) !! themeId = Some t →
  currentTheme (this w) = None →
  body (doc w) = Some classes →
  let w' := after (_loadTheme themeId) w in
  let sheet := added_stylesheet t themeId (links (doc w)) (next_node (doc w)) in
  (_loadTheme themeId w).1 = Normal ()
  ∧ links (doc w') = links (doc w) ++ sheet
  ∧ next_node (doc w') = length sheet + next_node (doc w)
  ∧ loadedThemeCSS (this w') = loadedThemeCSS (this w) ++ sheet
  ∧ body (doc w') = Some (classList_add (theme_class themeId) classes)
  ∧ currentTheme (this w') = Some t
  ∧ currentThemeId (this w') = Some themeId
  ∧ currentPage (this w') = currentPage (this w)
  ∧ hook_calls (trace w') = hook_calls (trace w) ++ init_call t themeId.
Proof.
  intros Hreg Hcur Hbody w' sheet. unfold w', after.
  rewrite (_loadTheme_first_run w themeId t classes Hreg Hcur Hbody).
  unfold with_class, init_call.
  destruct (Theme.init t); cbn; repeat split.
  all: rewrite !hook_calls_app, hook_calls_links, ?app_nil_r; reflexivity.
Qed.



(** X16.  Construction with a configuration that fails validation throws
    the validation's error before any theme is looked up: the document,
    storage and the trace are as before (no stylesheet, no body class, no
    hook, no warning), and the instance is left without a theme. *)
Theorem constructor_invalid_config_loads_no_theme (smartSearchInstance : client)
    (userConfig : jsval) (functions : callbacks) (registry : gmap string Theme.t)
    (w : world) (e : js_error) :
  _validateConfig (_mergeConfig (match userConfig with JUndefined => JObj [] | c => c end))
  = Throw e →
  let r := constructor smartSearchInstance userConfig functions registry w in
  r.1 = Throw e
  ∧ doc r.2 = doc w ∧ localStorage r.2 = localStorage w ∧ trace r.2 = trace w
  ∧ currentTheme (this r.2) = None ∧ currentThemeId (this r.2) = None.
Proof.
  intros Hinvalid r.
  assert (Hrun : r = (Throw e, with_this (fun _ =>
    {| fsss := smartSearchInstance;
       config := _mergeConfig (match userConfig with JUndefined => JObj [] | c => c end);
       hooks := functions; themeRegistry := registry; currentPage := None;
       currentTheme := None; currentThemeId := None; loadedThemeCSS := [];
       facetContainer := false |}) w)).
  { unfold r, constructor. run. run. cbn [this with_this config].
    unfold lift at 1. unfold bind at 1. rewrite Hinvalid. reflexivity. }
  rewrite Hrun. repeat split.
Qed.

Lemma constructor_invalid_config_loads_no_theme_witness :
  let r := constructor Session.fixed_client JUndefined Session.no_callbacks Themes.registry
             Session.page_loaded in
  (∃ message, r.1 = Throw (Error message)) ∧ links (doc r.2) = [] ∧ body (doc r.2) = Some [].
Proof.
  intros r.
  pose proof (constructor_invalid_config_loads_no_theme Session.fixed_client JUndefined
                Session.no_callbacks Themes.registry Session.page_loaded
                (Error (missing_message (missing_leaves (_mergeConfig (JObj []))))))
    as Hrun.
  cbv zeta in Hrun. specialize (Hrun ltac:(vm_compute; reflexivity)).
  destruct Hrun as (Hthrown & Hdoc & _).
  split; [eexists; exact Hthrown|]. fold r in Hdoc. rewrite Hdoc. split; reflexivity.
Defined.

Lemma detached_fresh (t : Theme.t) (themeId : string) (ls : list link) (fresh : nat) :
  (∀ l, l ∈ ls → node l < fresh) →
  detached (added_stylesheet t themeId ls fresh) (ls ++ added_stylesheet t themeId ls fresh)
  = ls.
Proof.
  intros Hfresh. unfold added_stylesheet.
  destruct (Theme.cssFile t) as [cssFile|];
    [destruct (String.eqb cssFile ""); [|destruct (list_find _ ls)]|].
  all: try (rewrite detached_nil; apply app_nil_r).
  unfold detached. rewrite filter_app.
  rewrite filter_cons_False, filter_nil, app_nil_r.
  - induction ls as [|l ls IH]; [reflexivity|].
    rewrite filter_cons_True.
    + f_equal. apply IH. intros x Hx. apply Hfresh. right. exact Hx.
    + cbn. unfold same_node. rewrite bool_decide_eq_false_2; [reflexivity|].
      cbn. specialize (Hfresh l ltac:(left)). lia.
  - cbn. unfold same_node. rewrite bool_decide_eq_true_2 by reflexivity. discriminate.
Qed.

Lemma classList_remove_added (class : string) (classes : list string) :
  class ∉ classes →
  classList_remove class (classList_add class classes) = classes.
Proof.
  intros Hnew. unfold classList_add, classList_remove.
  rewrite bool_decide_eq_false_2 by exact Hnew.
  rewrite filter_app, filter_cons_False, filter_nil, app_nil_r by (intros Hne; apply Hne; reflexivity).
  induction classes as [|c classes IH]; [reflexivity|].
  rewrite filter_cons_True.
  - f_equal. apply IH. intros Hin. apply Hnew. right. exact Hin.
  - intros ->. apply Hnew. left.
Qed.

Lemma hook_calls_destroy (t : Theme.t) (themeId : string) :
  hook_calls (destroy_call t themeId) = destroy_call t themeId.
Proof. unfold destroy_call. destruct (Theme.destroy t); reflexivity. Qed.

(** X17.  Activating a theme on an instance without one and deactivating it
    again restores the document: the links are those from before (the
    theme's stylesheet reference is gone), the body has its former classes,
    and the instance is without a theme; [init] and then [destroy] were
    called.  It takes a body that did not carry the theme's class already,
    an id that is not the empty string (the class of an empty id is not
    removed), and an instance that remembers no links. *)
Theorem load_then_unload_restores_document (w : world) (themeId : string) (t : Theme.t)
    (classes : list string) :
  themeRegistry (this w) !! themeId = Some t →
  currentTheme (this w) = None →
  loadedThemeCSS (this w) = [] →
  body (doc w) = Some classes →
  theme_class themeId ∉ classes →
  themeId ≠ "" →
  (∀ l, l ∈ links (doc w) → node l < next_node (doc w)) →
  let w' := after _unloadTheme (after (_loadTheme themeId) w) in
  links (doc w') = links (doc w)
  ∧ body (doc w') = Some classes
  ∧ currentTheme (this w') = None
  ∧ currentThemeId (this w') = None
  ∧ loadedThemeCSS (this w') = []
  ∧ hook_calls (trace w')
    = hook_calls (trace w) ++ init_call t themeId ++ destroy_call t themeId.
Proof.
  intros Hreg Hcur Hloaded Hbody Hnew Hne Hfresh w'.
  destruct (_loadTheme_first_facts w themeId t classes Hreg Hcur Hbody)
    as (_ & Hlinks & _ & Hsheet & Hclasses & Htheme & Hid & _ & Hhooks).
  set (w1 := after (_loadTheme themeId) w) in *.
  destruct (_unloadTheme_run w1 t themeId _ Htheme Hid Hne Hclasses)
    as (removals & Hquiet & Hrun).
  unfold w', after. rewrite Hrun. cbn [snd].
  rewrite Hsheet, Hloaded. cbn [app].
  assert (Hsame : ∀ x : world,
            links (doc (if Theme.destroy t
                        then with_trace (fun tr => tr ++ [HookDestroy themeId]) x else x))
            = links (doc x)) by (intros x; destruct (Theme.destroy t); reflexivity).
  repeat split.
  - cbn. rewrite Hsame, Hlinks. apply detached_fresh. exact Hfresh.
  - cbn. rewrite classList_remove_added by exact Hnew. reflexivity.
  - pose proof (filter_hooks_quiet removals Hquiet : hook_calls removals = []) as Hq.
    assert (Hd : hook_calls [HookDestroy themeId] = [HookDestroy themeId]) by reflexivity.
    assert (Hr : hook_calls [BodyClassRemove (theme_class themeId)] = []) by reflexivity.
    unfold destroy_call. destruct (Theme.destroy t); cbn [trace with_trace this doc with_this with_doc].
    all: rewrite !hook_calls_app, Hhooks, Hq, Hr, ?Hd, ?app_nil_r, <- ?app_assoc.
    all: reflexivity.
Qed.

Lemma load_then_unload_restores_document_witness :
  let w1 := after (_loadTheme "magazine") themeless in
  let w2 := after _unloadTheme w1 in
  length (links (doc w1)) = 1 ∧ body (doc w1) = Some ["theme-magazine"]
  ∧ links (doc w2) = [] ∧ body (doc w2) = Some []
  ∧ hook_calls (trace w2) = [HookInit "magazine"; HookDestroy "magazine"].
Proof.
  intros w1 w2.
  pose proof (load_then_unload_restores_document themeless "magazine" Themes.magazine [])
    as Hback.
  cbv zeta in Hback.
  specialize (Hback ltac:(vm_compute; reflexivity) ltac:(vm_compute; reflexivity)
                    ltac:(vm_compute; reflexivity) ltac:(vm_compute; reflexivity)
                    ltac:(apply not_elem_of_nil) ltac:(discriminate)
                    ltac:(intros l Hl; vm_compute in Hl; inversion Hl)).
  destruct Hback as (Hlinks & Hclasses & _ & _ & _ & Hhooks).
  split; [vm_compute; reflexivity|]. split; [vm_compute; reflexivity|].
  split; [exact Hlinks|]. split; [exact Hclasses|exact Hhooks].
Defined.

Lemma DOMContentLoaded_run (w : world) :
  DOMContentLoaded w
  = forEach applyClass (onDOMContentLoaded (doc w))
      (with_doc (fun d => set_body (Some (default [] (body d))) (set_ready [] false d)) w).
Proof. unfold DOMContentLoaded. run. run. reflexivity. Qed.

(** X18.  A theme activated while the document is still loading and has no
    body: [_loadTheme] makes the theme the current one and registers the
    class for later; neither the class nor [init] happens yet.  When the
    document fires [DOMContentLoaded] the class is put on the body and
    [init] is called, once. *)
Theorem deferred_activation_waits_for_body (w : world) (themeId : string) (t : Theme.t) :
  themeRegistry (this w) !! themeId = Some t →
  currentTheme (this w) = None →
  body (doc w) = None →
  loading (doc w) = true →
  onDOMContentLoaded (doc w) = [] →
  let w1 := after (_loadTheme themeId) w in
  let w2 := after DOMContentLoaded w1 in
  body (doc w1) = None
  ∧ currentThemeId (this w1) = Some themeId
  ∧ hook_calls (trace w1) = hook_calls (trace w)
  ∧ body (doc w2) = Some [theme_class themeId]
  ∧ loading (doc w2) = false
  ∧ onDOMContentLoaded (doc w2) = []
  ∧ hook_calls (trace w2) = hook_calls (trace w) ++ init_call t themeId.
Proof.
  intros Hreg Hcur Hbody Hloading Hnone w1 w2.
  pose proof (_loadTheme_deferred_run w themeId t Hreg Hcur Hbody Hloading) as Hrun.
  assert (Hw1 : w1 = with_trace (fun tr => tr ++ [loaded_message themeId])
                       (with_doc (fun d => set_ready (onDOMContentLoaded d ++ [themeId]) true d)
                          (with_theme t themeId w))).
  { unfold w1, after. rewrite Hrun. reflexivity. }
  assert (Hquiet : hook_calls (trace w1) = hook_calls (trace w)).
  { rewrite Hw1. cbn. rewrite !hook_calls_app, hook_calls_links, !app_nil_r. reflexivity. }
  split; [rewrite Hw1; exact Hbody|]. split; [rewrite Hw1; reflexivity|].
  split; [exact Hquiet|].
  assert (Hlisteners : onDOMContentLoaded (doc w1) = [themeId]).
  { rewrite Hw1. cbn. rewrite Hnone. reflexivity. }
  assert (Hbody1 : body (doc w1) = None) by (rewrite Hw1; exact Hbody).
  set (ready := with_doc (fun d => set_body (Some (default [] (body d))) (set_ready [] false d))
                  w1).
  assert (Hfire : DOMContentLoaded w1
                  = (Normal (), with_class themeId []
                                  (if Theme.init t then Some themeId else None) ready)).
  { rewrite DOMContentLoaded_run, Hlisteners. fold ready. cbn [forEach].
    eapply bind_run; [|reflexivity].
    erewrite (applyClass_run themeId themeId t [] ready).
    - unfold with_class. destruct (Theme.init t); reflexivity.
    - unfold ready. cbn. rewrite Hbody1. reflexivity.
    - unfold ready. rewrite Hw1. reflexivity.
    - unfold ready. rewrite Hw1. reflexivity. }
  unfold w2, after. rewrite Hfire. cbn [snd]. unfold with_class, init_call.
  destruct (Theme.init t); cbn; repeat split.
  all: rewrite ?hook_calls_app; fold (hook_calls (trace w1)); rewrite Hquiet.
  all: rewrite ?app_nil_r; reflexivity.
Qed.

Lemma deferred_activation_waits_for_body_witness :
  let w1 := after (_loadTheme "minimal") in_head in
  let w2 := after DOMContentLoaded w1 in
  body (doc w1) = None ∧ hook_calls (trace w1) = []
  ∧ body (doc w2) = Some ["theme-minimal"] ∧ hook_calls (trace w2) = [HookInit "minimal"].
Proof.
  intros w1 w2.
  pose proof (deferred_activation_waits_for_body in_head "minimal" Themes.minimal) as Hlater.
  cbv zeta in Hlater.
  specialize (Hlater ltac:(vm_compute; reflexivity) ltac:(vm_compute; reflexivity)
                     ltac:(vm_compute; reflexivity) ltac:(vm_compute; reflexivity)
                     ltac:(vm_compute; reflexivity)).
  destruct Hlater as (Hbody & _ & Hquiet & Hclass & _ & _ & Hinit).
  split; [exact Hbody|]. split; [exact Hquiet|]. split; [exact Hclass|exact Hinit].
Defined.

Lemma _unloadTheme_bodiless_run (w : world) (old : Theme.t) (active : option string) :
  currentTheme (this w) = Some old →
  currentThemeId (this w) = active →
  body (doc w) = None →
  ∃ removals,
    Forall (fun e => is_hook e = false) removals
    ∧ _unloadTheme w
      = (Normal (),
         with_this (set_currentTheme None None)
           (with_this (set_loadedThemeCSS [])
              (with_trace (fun t => t ++ removals)
                 (with_doc (fun d =>
                    set_links (detached (loadedThemeCSS (this w)) (links d)) (next_node d) d)
                    (if Theme.destroy old
                     then with_trace (fun t => t ++ [HookDestroy (default "" active)]) w
                     else w))))).
Proof.
  intros Hcur Hid Hbody.
  set (w1 := if Theme.destroy old
             then with_trace (fun t => t ++ [HookDestroy (default "" active)]) w else w).
  destruct (forEach_detach (loadedThemeCSS (this w)) w1) as (removals & Hrun & Hquiet).
  exists removals. split; [exact Hquiet|].
  unfold _unloadTheme.
  run. rewrite Hcur. run. rewrite Hid.
  eapply (bind_run _ _ w w1 ()).
  { unfold when, w1. destruct (Theme.destroy old); reflexivity. }
  assert (Hbody1 : body (doc w1) = None).
  { unfold w1. destruct (Theme.destroy old); exact Hbody. }
  assert (Hloaded : loadedThemeCSS (this w1) = loadedThemeCSS (this w)).
  { unfold w1. destruct (Theme.destroy old); reflexivity. }
  run. rewrite Hbody1.
  eapply (bind_run _ _ w1 w1 ()); [reflexivity|].
  run. rewrite Hloaded.
  eapply bind_run; [exact Hrun|]. reflexivity.
Qed.

Lemma theme_class_inj (a b : string) : theme_class a = theme_class b → a = b.
Proof. unfold theme_class. cbn. intros Heq. injection Heq. tauto. Qed.

(** X19.  Two themes activated one after the other before the document has
    a body (the constructor's theme, then a [switchTheme]): deactivating the
    first cannot take its class back, for it is not on yet, and its listener
    stays registered.  At [DOMContentLoaded] both listeners run: the body
    ends up with the classes of both themes, and each listener calls [init]
    of the theme that is current by then, so the second theme's [init] runs
    twice and the first theme's not at all. *)
Theorem deferred_activations_all_fire (w : world) (earlier later : string)
    (t1 t2 : Theme.t) :
  themeRegistry (this w) !! earlier = Some t1 →
  themeRegistry (this w) !! later = Some t2 →
  currentTheme (this w) = None →
  body (doc w) = None →
  loading (doc w) = true →
  onDOMContentLoaded (doc w) = [] →
  earlier ≠ later →
  let w' := after DOMContentLoaded
              (after (_loadTheme later) (after (_loadTheme earlier) w)) in
  body (doc w') = Some [theme_class earlier; theme_class later]
  ∧ currentThemeId (this w') = Some later
  ∧ hook_calls (trace w')
    = hook_calls (trace w) ++ destroy_call t1 earlier
      ++ init_call t2 later ++ init_call t2 later.
Proof.
  intros Hreg1 Hreg2 Hcur Hbody Hloading Hnone Hdiff w'.
  (* the first activation *)
  pose proof (_loadTheme_deferred_run w earlier t1 Hreg1 Hcur Hbody Hloading) as Hrun1.
  set (w1 := after (_loadTheme earlier) w) in *.
  assert (Hw1 : w1 = with_trace (fun tr => tr ++ [loaded_message earlier])
                       (with_doc (fun d => set_ready (onDOMContentLoaded d ++ [earlier]) true d)
                          (with_theme t1 earlier w))).
  { unfold w1, after. rewrite Hrun1. reflexivity. }
  assert (Hfacts1 : themeRegistry (this w1) !! later = Some t2
                    ∧ currentTheme (this w1) = Some t1
                    ∧ currentThemeId (this w1) = Some earlier
                    ∧ body (doc w1) = None ∧ loading (doc w1) = true
                    ∧ onDOMContentLoaded (doc w1) = [earlier]
                    ∧ hook_calls (trace w1) = hook_calls (trace w)).
  { rewrite Hw1. cbn. rewrite Hnone, !hook_calls_app, hook_calls_links, !app_nil_r.
    repeat split; assumption. }
  clearbody w1. clear Hrun1 Hw1.
  destruct Hfacts1 as (Hreg & Hcur1 & Hid1 & Hbody1 & Hloading1 & Hlisten1 & Hhooks1).
  (* the first theme goes, the second comes *)
  destruct (_unloadTheme_bodiless_run w1 t1 (Some earlier) Hcur1 Hid1 Hbody1)
    as (removals & Hquiet & Hunload).
  set (unloaded := (_unloadTheme w1).2).
  assert (Hfacts : themeRegistry (this unloaded) !! later = Some t2
                   ∧ currentTheme (this unloaded) = None
                   ∧ body (doc unloaded) = None ∧ loading (doc unloaded) = true
                   ∧ onDOMContentLoaded (doc unloaded) = [earlier]
                   ∧ hook_calls (trace unloaded)
                     = hook_calls (trace w) ++ destroy_call t1 earlier).
  { unfold unloaded. rewrite Hunload. unfold destroy_call.
    pose proof (filter_hooks_quiet removals Hquiet : hook_calls removals = []) as Hq.
    destruct (Theme.destroy t1); cbn.
    all: rewrite ?hook_calls_app, Hq, Hhooks1, ?app_nil_r.
    all: repeat split; assumption. }
  destruct Hfacts as (Hreg' & Hcur' & Hbody' & Hloading' & Hlisten' & Hhooks').
  assert (Hrun2 : _loadTheme later w1 = _loadTheme later unloaded).
  { unfold _loadTheme. run. rewrite Hreg. run. rewrite Hcur1.
    rewrite bool_decide_eq_true_2 by eauto.
    eapply (bind_run _ _ w1 unloaded ()).
    { unfold when, unloaded. rewrite Hunload. reflexivity. }
    symmetry. run. rewrite Hreg'. run. rewrite Hcur'.
    rewrite bool_decide_eq_false_2 by (intros [x Hx]; discriminate Hx).
    eapply (bind_run _ _ unloaded unloaded ()); reflexivity. }
  pose proof (_loadTheme_deferred_run unloaded later t2 Hreg' Hcur' Hbody' Hloading')
    as Hdeferred.
  set (w2 := after (_loadTheme later) w1) in *.
  assert (Hw2 : w2 = with_trace (fun tr => tr ++ [loaded_message later])
                       (with_doc (fun d => set_ready (onDOMContentLoaded d ++ [later]) true d)
                          (with_theme t2 later unloaded))).
  { unfold w2, after. rewrite Hrun2, Hdeferred. reflexivity. }
  assert (Hfacts2 : currentTheme (this w2) = Some t2
                    ∧ currentThemeId (this w2) = Some later
                    ∧ body (doc w2) = None
                    ∧ onDOMContentLoaded (doc w2) = [earlier; later]
                    ∧ hook_calls (trace w2)
                      = hook_calls (trace w) ++ destroy_call t1 earlier).
  { rewrite Hw2. cbn. rewrite Hlisten', !hook_calls_app, hook_calls_links, !app_nil_r.
    repeat split; assumption. }
  clearbody w2. clear Hw2 Hdeferred Hrun2.
  destruct Hfacts2 as (Hcur2 & Hid2 & Hbody2 & Hlisten2 & Hhooks2).
  (* the document is ready *)
  set (ready := with_doc (fun d => set_body (Some (default [] (body d))) (set_ready [] false d))
                  w2).
  set (init := if Theme.init t2 then Some later else None).
  set (once := with_class earlier [] init ready).
  set (twice := with_class later (classList_add (theme_class earlier) []) init once).
  assert (Hfire : DOMContentLoaded w2 = (Normal (), twice)).
  { rewrite DOMContentLoaded_run, Hlisten2. fold ready. cbn [forEach].
    eapply (bind_run _ _ ready once ()).
    { erewrite (applyClass_run earlier later t2 [] ready).
      - unfold once, with_class, init. destruct (Theme.init t2); reflexivity.
      - unfold ready. cbn. rewrite Hbody2. reflexivity.
      - exact Hcur2.
      - exact Hid2. }
    eapply (bind_run _ _ once twice ()); [|reflexivity].
    erewrite (applyClass_run later later t2 (classList_add (theme_class earlier) []) once).
    - unfold twice, with_class, init. destruct (Theme.init t2); reflexivity.
    - unfold once, with_class, init. destruct (Theme.init t2); reflexivity.
    - unfold once, with_class, init. destruct (Theme.init t2); exact Hcur2.
    - unfold once, with_class, init. destruct (Theme.init t2); exact Hid2. }
  unfold w', after. rewrite Hfire. cbn [snd].
  assert (Hclasses : classList_add (theme_class later) (classList_add (theme_class earlier) [])
                     = [theme_class earlier; theme_class later]).
  { unfold classList_add at 2. rewrite bool_decide_eq_false_2 by apply not_elem_of_nil.
    unfold classList_add. rewrite bool_decide_eq_false_2; [reflexivity|].
    intros Hin. apply list_elem_of_singleton in Hin. apply theme_class_inj in Hin.
    apply Hdiff. symmetry. exact Hin. }
  unfold twice, once, with_class, init, init_call.
  destruct (Theme.init t2); cbn.
  all: rewrite Hclasses, ?hook_calls_app; fold (hook_calls (trace w2)); rewrite Hhooks2.
  all: repeat split; try exact Hid2.
  all: rewrite ?app_nil_r, <- ?app_assoc; reflexivity.
Qed.

Lemma deferred_activations_all_fire_witness :
  let w' := after DOMContentLoaded
              (after (_loadTheme "minimal") (after (_loadTheme "default") in_head)) in
  body (doc w') = Some ["theme-default"; "theme-minimal"]
  ∧ hook_calls (trace w')
    = [HookDestroy "default"; HookInit "minimal"; HookInit "minimal"].
Proof.
  intros w'.
  pose proof (deferred_activations_all_fire in_head "default" "minimal"
                Themes.default Themes.minimal) as Hboth.
  cbv zeta in Hboth.
  specialize (Hboth ltac:(vm_compute; reflexivity) ltac:(vm_compute; reflexivity)
                    ltac:(vm_compute; reflexivity) ltac:(vm_compute; reflexivity)
                    ltac:(vm_compute; reflexivity) ltac:(vm_compute; reflexivity)
                    ltac:(discriminate)).
  destruct Hboth as (Hclasses & _ & Hhooks).
  split; [exact Hclasses|exact Hhooks].
Defined.

(** * Keys and nested values of the merged configuration *)

Lemma foldl_merge_keys (target : jsval) (source output : list (string * jsval))
    (key : string) :
  is_Some (lookup_prop key (foldl (merge_step _deepMerge target) output source))
  ↔ is_Some (lookup_prop key output) ∨ is_Some (lookup_prop key source).
Proof.
  revert output. induction source as [|[k v] rest IH]; intros output.
  - cbn. split; [tauto|]. intros [Hout|[x Hx]]; [exact Hout|discriminate Hx].
  - cbn [foldl]. rewrite IH, merge_step_lookup. cbn [lookup_prop].
    destruct (String.eqb k key); [|tauto].
    split; intros _; [right|left]; eauto.
Qed.

(** X20.  The merge of two objects has the keys of both and no other: no
    default is dropped at this level and no key of the user's object is left
    out, whatever the values are. *)
Theorem deepMerge_keys (target source : list (string * jsval)) (key : string) :
  has_key key (_deepMerge (JObj target) (JObj source))
  = has_key key (JObj target) || has_key key (JObj source).
Proof.
  rewrite _deepMerge_objects. unfold has_key.
  apply eq_true_iff_eq. rewrite orb_true_iff, !bool_decide_eq_true.
  apply foldl_merge_keys.
Qed.



(** * Tag filters of the themes *)

Section TagFilters.
Context `{Platform}.




End TagFilters.



(** * The results line *)






(** * The settings form *)




Section SettingsForm.
Variable trim : string → string.



End SettingsForm.


(** * The magazine theme's expand button *)

Lemma hide_after_first_cons (was : bool) (rest : list bool) :
  Magazine.hide_after_first (was :: rest) = was :: ((fun _ => true) <$> rest).
Proof.
  unfold Magazine.hide_after_first. rewrite imap_cons. cbn. f_equal.
  rewrite <- (imap_const (fun _ : bool => true)). apply imap_ext. reflexivity.
Qed.

Lemma all_hidden_count (rest : list bool) :
  length (base.filter (fun hidden => hidden = true) ((fun _ : bool => true) <$> rest))
  = length rest.
Proof.
  induction rest as [|x rest IH]; [reflexivity|].
  rewrite fmap_cons, filter_cons_True by reflexivity. cbn. rewrite IH. reflexivity.
Qed.

Lemma none_hidden_count (found : list bool) :
  base.filter (fun hidden => hidden = true) ((fun _ : bool => false) <$> found) = [].
Proof.
  induction found as [|x rest IH]; [reflexivity|].
  rewrite fmap_cons, filter_cons_False by discriminate. exact IH.
Qed.

(** X27.  Set up on a bar whose first facet block is not hidden and that has
    something to hide (a second facet block, or the date filter box), the
    function ends at once whatever the retry count: it hides every facet
    block after the first and the date filter box, leaves the first block
    shown, and puts in the button, whose text carries the number of items
    that are hidden now. *)
Theorem addExpandButton_hides_what_it_counts (b : Magazine.bar) (retryCount : nat)
    (rest : list bool) :
  Magazine.facets b = Some (false :: rest) →
  Magazine.hideableCount (false :: rest) (Magazine.dateFilter b) ≠ 0 →
  let count := Magazine.hideableCount (false :: rest) (Magazine.dateFilter b) in
  ∃ b',
    Magazine._addExpandButton b retryCount = Magazine.Done b'
    ∧ Magazine.facets b' = Some (false :: ((fun _ => true) <$> rest))
    ∧ Magazine.button b' = Some (Magazine.more_text count, false)
    ∧ Magazine.hidden_count b' = count
    ∧ Magazine.expanded b' = Magazine.expanded b.
Proof.
  intros Hfound Hsome count. unfold Magazine._addExpandButton. rewrite Hfound.
  cbn [length Nat.eqb andb]. fold count.
  apply Nat.eqb_neq in Hsome. fold count in Hsome. rewrite Hsome.
  eexists. split; [reflexivity|].
  unfold Magazine.hidden_count.
  cbn [Magazine.facets Magazine.button Magazine.expanded Magazine.dateFilter default].
  rewrite hide_after_first_cons.
  split; [reflexivity|]. split; [reflexivity|]. split; [|reflexivity].
  unfold id. rewrite filter_cons_False by discriminate. rewrite all_hidden_count.
  unfold count, Magazine.hideableCount. cbn [length].
  destruct (Magazine.dateFilter b) as [shown|]; destruct rest; cbn; lia.
Qed.

Lemma addExpandButton_hides_what_it_counts_witness :
  Magazine._addExpandButton
    {| Magazine.facets := Some [false; false; false]; Magazine.dateFilter := Some false;
       Magazine.expanded := false; Magazine.button := None |} 0
  = Magazine.Done
      {| Magazine.facets := Some [false; true; true]; Magazine.dateFilter := Some true;
         Magazine.expanded := false;
         Magazine.button := Some ("Show more filters (3)", false) |}.
Proof.
  destruct (addExpandButton_hides_what_it_counts
              {| Magazine.facets := Some [false; false; false];
                 Magazine.dateFilter := Some false;
                 Magazine.expanded := false; Magazine.button := None |} 0 [false; false]
              eq_refl ltac:(vm_compute; lia)) as (b' & Hrun & _).
  rewrite Hrun. vm_compute in Hrun. injection Hrun as <-. reflexivity.
Defined.

(** X28.  The button made by that setup on a bar that is not expanded: a
    click shows every facet block and the date filter box, and a second
    click hides again exactly what the setup had hidden, with the button
    text it had; two clicks leave the bar as the setup left it. *)
Theorem expand_click_twice_restores (b b' : Magazine.bar) (retryCount : nat)
    (rest : list bool) :
  Magazine.facets b = Some (false :: rest) →
  Magazine.hideableCount (false :: rest) (Magazine.dateFilter b) ≠ 0 →
  Magazine.expanded b = false →
  Magazine._addExpandButton b retryCount = Magazine.Done b' →
  let count := Magazine.hideableCount (false :: rest) (Magazine.dateFilter b) in
  Magazine.hidden_count (Magazine.expand_click count b') = 0
  ∧ Magazine.expanded (Magazine.expand_click count b') = true
  ∧ Magazine.expand_click count (Magazine.expand_click count b') = b'.
Proof.
  intros Hfound Hsome Hcollapsed Hrun count.
  unfold Magazine._addExpandButton in Hrun. rewrite Hfound in Hrun.
  cbn [length Nat.eqb andb] in Hrun. fold count in Hrun.
  apply Nat.eqb_neq in Hsome. fold count in Hsome. rewrite Hsome in Hrun.
  injection Hrun as <-. rewrite Hcollapsed, hide_after_first_cons.
  unfold Magazine.expand_click, Magazine.hidden_count.
  cbn [Magazine.facets Magazine.button Magazine.expanded Magazine.dateFilter default
       fmap option_fmap option_map].
  unfold id. rewrite !fmap_cons, hide_after_first_cons, <- !list_fmap_compose.
  rewrite filter_cons_False by discriminate.
  change ((fun _ : bool => false) ∘ (fun _ : bool => true)) with (fun _ : bool => false).
  change ((fun _ : bool => true) ∘ (fun _ : bool => false)) with (fun _ : bool => true).
  rewrite none_hidden_count.
  destruct (Magazine.dateFilter b); repeat split.
Qed.

Lemma expand_click_twice_restores_witness :
  let made := {| Magazine.facets := Some [false; true]; Magazine.dateFilter := None;
                 Magazine.expanded := false;
                 Magazine.button := Some ("Show more filters (1)", false) |} in
  Magazine.expand_click 1 made
  = {| Magazine.facets := Some [false; false]; Magazine.dateFilter := None;
       Magazine.expanded := true; Magazine.button := Some ("Show fewer filters", true) |}
  ∧ Magazine.expand_click 1 (Magazine.expand_click 1 made) = made.
Proof.
  intros made. split; [reflexivity|].
  exact (proj2 (proj2 (expand_click_twice_restores
           {| Magazine.facets := Some [false; false]; Magazine.dateFilter := None;
              Magazine.expanded := false; Magazine.button := None |} made 0 [false]
           eq_refl ltac:(vm_compute; lia) eq_refl eq_refl))).
Defined.

Lemma addExpandButton_step (b : Magazine.bar) (retryCount : nat) :
  (∃ b', Magazine._addExpandButton b retryCount = Magazine.Done b')
  ∨ (retryCount < 5
     ∧ Magazine._addExpandButton b retryCount = Magazine.Retry (retryCount + 1)).
Proof.
  unfold Magazine._addExpandButton.
  destruct (Magazine.facets b) as [found|].
  - destruct (length found =? 0)%nat; cbn [andb].
    + destruct (Nat.ltb_spec retryCount 5); [right; split; [assumption|reflexivity]|].
      destruct (_ =? 0)%nat; left; eauto.
    + destruct (_ =? 0)%nat; left; eauto.
  - destruct (Nat.ltb_spec retryCount 5); [right; split; [assumption|reflexivity]|].
    left; eauto.
Qed.

Lemma addExpandButton_no_container (b : Magazine.bar) (retryCount : nat) :
  Magazine.facets b = None →
  Magazine._addExpandButton b retryCount
  = if (retryCount <? 5)%nat then Magazine.Retry (retryCount + 1) else Magazine.Done b.
Proof. intros Hnone. unfold Magazine._addExpandButton. rewrite Hnone. reflexivity. Qed.

Lemma chain_ends (view : nat → Magazine.bar) (calls retryCount : nat) :
  6 ≤ calls + retryCount →
  0 < calls →
  is_Some (Magazine.chain calls view retryCount).
Proof.
  revert retryCount. induction calls as [|calls IH]; intros retryCount Henough Hsome; [lia|].
  cbn [Magazine.chain].
  destruct (addExpandButton_step (view retryCount) retryCount) as [[b' ->]|[Hfew ->]];
    [eauto|].
  apply IH; lia.
Qed.

(** X29.  The retries end: whatever the page makes of the bar between the
    timers, the chain that [init] starts (retry count 0) comes to an end
    within six calls; it gives up on a bar that still has no facet
    container at the sixth. *)
Theorem addExpandButton_gives_up (view : nat → Magazine.bar) :
  is_Some (Magazine.chain 6 view 0)
  ∧ ((∀ n, Magazine.facets (view n) = None) → Magazine.chain 6 view 0 = Some (view 5))
  ∧ ((∀ n, Magazine.facets (view n) = None) → Magazine.chain 5 view 0 = None).
Proof.
  split; [apply chain_ends; lia|].
  split; intros Hnone.
  all: repeat (cbn [Magazine.chain];
               rewrite addExpandButton_no_container by apply Hnone;
               cbn [Nat.ltb Nat.leb Nat.add]).
  all: reflexivity.
Qed.

Lemma addExpandButton_gives_up_witness :
  let bare := {| Magazine.facets := None; Magazine.dateFilter := None;
                 Magazine.expanded := false; Magazine.button := None |} in
  Magazine.chain 6 (fun _ => bare) 0 = Some bare
  ∧ Magazine.chain 5 (fun _ => bare) 0 = None.
Proof.
  intros bare.
  destruct (addExpandButton_gives_up (fun _ => bare)) as (_ & Hsixth & Hfifth).
  split; [apply Hsixth|apply Hfifth]; reflexivity.
Defined.
